(** * anp-go: DID-WBA authentication, a shallow embedding

    The Go packages [anp_auth] (signing, header codec, verifier, nonce
    validator, client transport) and [anp_crawler] (the authenticated
    HTTP client) are embedded as Rocq functions, and the properties the
    specification states about them are proved or refuted on that
    embedding.

    Conventions.
    - A Go [string] is a Rocq [string] (a sequence of bytes).
    - [time.Time] is the instant it denotes, in nanoseconds since the
      Unix epoch, as an unbounded [Z]; [time.Duration] is an [int64]
      number of nanoseconds, as a [Z] in the [int64] range.
    - A Go [map] is a [gmap]; a function returning [(T, error)] returns
      a sum [error + T]; a function returning only [error] returns
      [option error], [None] being [nil].
    - Mutable receivers are threaded explicitly: a method takes the
      state of its receiver and returns the new one.
    - What Go reads from the outside (the wall clock, the network, the
      JWT library) comes from a [World] value supplied to each call. *)

From Stdlib Require Import ZArith List String Ascii Bool Lia.
From stdpp Require Import base option list gmap strings.
From Bignums Require Import BigZ.

Local Open Scope Z_scope.

(** ** package time *)

Module GoTime.

Abbreviation Time := Z (only parsing).
Abbreviation Duration := Z (only parsing).

Definition Nanosecond : Duration := 1.
Definition Microsecond : Duration := 1000 * Nanosecond.
Definition Millisecond : Duration := 1000 * Microsecond.
Definition Second : Duration := 1000 * Millisecond.
Definition Minute : Duration := 60 * Second.
Definition Hour : Duration := 60 * Minute.

Definition minDuration : Duration := - 2 ^ 63.
Definition maxDuration : Duration := 2 ^ 63 - 1.


(** [t.Add(d)]. *)
Definition Add (t : Time) (d : Duration) : Time := t + d.

(** [t.Sub(u)]: the difference, or the nearest [Duration] when the
    difference does not fit in an [int64]. *)
Definition Sub (t u : Time) : Duration :=
  if t - u <? minDuration then minDuration
  else if maxDuration <? t - u then maxDuration
  else t - u.

(** [t.After(u)] and [t.Before(u)]. *)
Definition After (t u : Time) : bool := u <? t.
Definition Before (t u : Time) : bool := t <? u.

End GoTime.

Import GoTime.

(** ** errors.go: sentinel errors and status-carrying errors *)

Module Errors.

Inductive Sentinel : Set :=
| ErrMissingAuthHeader
| ErrInvalidAuthHeader
| ErrInvalidToken
| ErrTokenExpired
| ErrInvalidSignature
| ErrNonceReused
| ErrNonceInvalid
| ErrTimestampExpired
| ErrTimestampFuture
| ErrTimestampInvalid
| ErrDomainNotAllowed
| ErrDIDMismatch
| ErrDIDResolution
| ErrVerificationMethodNotFound
| ErrUnsupportedVerificationMethod
| ErrJWTConfigMissing
| ErrNonceValidatorMissing
| ErrNonceValidatorFailure
| ErrInvalidDIDFormat
| ErrInvalidHostname
| ErrKeyGeneration
| ErrPayloadMarshal
| ErrSigningFailure
| ErrInvalidJWK
| ErrTokenCreation.

#[global] Instance Sentinel_eq_dec : EqDecision Sentinel.
Proof. solve_decision. Defined.

(** The message [errors.New] was given for each sentinel. *)
Definition sentinel_message (s : Sentinel) : string :=
  match s with
  | ErrMissingAuthHeader => "missing authorization header"
  | ErrInvalidAuthHeader => "invalid authorization header"
  | ErrInvalidToken => "invalid token"
  | ErrTokenExpired => "token expired"
  | ErrInvalidSignature => "signature verification failed"
  | ErrNonceReused => "nonce already used"
  | ErrNonceInvalid => "invalid or expired nonce"
  | ErrTimestampExpired => "timestamp expired"
  | ErrTimestampFuture => "timestamp is in the future"
  | ErrTimestampInvalid => "invalid timestamp format"
  | ErrDomainNotAllowed => "domain not allowed"
  | ErrDIDMismatch => "DID mismatch"
  | ErrDIDResolution => "failed to resolve DID document"
  | ErrVerificationMethodNotFound => "verification method not found"
  | ErrUnsupportedVerificationMethod => "unsupported verification method type"
  | ErrJWTConfigMissing => "JWT key not configured"
  | ErrNonceValidatorMissing => "nonce validator is required"
  | ErrNonceValidatorFailure => "nonce validator error"
  | ErrInvalidDIDFormat => "invalid DID format"
  | ErrInvalidHostname => "invalid hostname"
  | ErrKeyGeneration => "failed to generate key pair"
  | ErrPayloadMarshal => "failed to marshal payload"
  | ErrSigningFailure => "failed to sign payload"
  | ErrInvalidJWK => "invalid JWK parameters"
  | ErrTokenCreation => "failed to create access token"
  end.

(** Go's [error] values, as this package builds them. *)
Inductive error : Type :=
| ErrIs (s : Sentinel)
    (* a sentinel itself *)
| ErrNew (msg : string)
    (* errors.New(msg), fmt.Errorf without %w *)
| ErrWrapSentinel (s : Sentinel) (detail : string)
    (* fmt.Errorf("%w: %s", s, detail) *)
| ErrWrap (context : string) (cause : error)
    (* fmt.Errorf(context + ": %w", cause) *)
| wrappedAuthError (sentinel : Sentinel) (message : string) (cause : error)
| ErrorWithStatus (Err : error) (StatusCode : Z).

Definition StatusUnauthorized : Z := 401.
Definition StatusForbidden : Z := 403.
Definition StatusBadRequest : Z := 400.
Definition StatusInternalServerError : Z := 500.

(** [err.Error()]. *)
Fixpoint Error (e : error) : string :=
  match e with
  | ErrIs s => sentinel_message s
  | ErrNew msg => msg
  | ErrWrapSentinel s detail => sentinel_message s +:+ ": " +:+ detail
  | ErrWrap context cause => context +:+ ": " +:+ Error cause
  | wrappedAuthError _ message cause =>
      if decide (message = "") then Error cause
      else message +:+ ": " +:+ Error cause
  | ErrorWithStatus err _ => Error err
  end.

(** [WrapAuthError(sentinel, message, err)]; [err] is [None] for [nil]. *)
Definition WrapAuthError (sentinel : Sentinel) (message : string)
    (err : option error) : error :=
  match err with
  | None => ErrIs sentinel
  | Some cause => wrappedAuthError sentinel message cause
  end.

Definition NewErrorWithStatus (err : error) (statusCode : Z) : error :=
  ErrorWithStatus err statusCode.

(** [err.Unwrap()], [None] where the error wraps nothing. *)
Definition Unwrap (e : error) : option error :=
  match e with
  | ErrIs _ | ErrNew _ => None
  | ErrWrapSentinel s _ => Some (ErrIs s)
  | ErrWrap _ cause => Some cause
  | wrappedAuthError s _ _ => Some (ErrIs s)
  | ErrorWithStatus err _ => Some err
  end.

(** [GetStatusCode(err, defaultCode)]: [errors.As] walks the [Unwrap]
    chain to the first [*ErrorWithStatus]. *)
Fixpoint GetStatusCode (err : error) (defaultCode : Z) : Z :=
  match err with
  | ErrorWithStatus _ code => code
  | ErrWrap _ cause => GetStatusCode cause defaultCode
  | ErrIs _ | ErrNew _ | ErrWrapSentinel _ _ | wrappedAuthError _ _ _ => defaultCode
  end.


End Errors.

Import Errors.

(** ** nonce.go: the in-memory nonce validator *)

Module Nonce.

(** [MemoryNonceValidator]: the [used] map from key to insertion time
    and the configured [expiration]; the mutex serialises the calls and
    has no counterpart here. *)
Record MemoryNonceValidator : Type := {
  used : gmap string Time;
  expiration : Duration
}.

Definition NewMemoryNonceValidator (expiration : Duration) : MemoryNonceValidator :=
  {| used := ∅; expiration := expiration |}.

(** [key := did + ":" + nonce] *)
Definition nonce_key (did nonce : string) : string := did +:+ ":" +:+ nonce.

(** An entry the cleaning loop deletes: [now.Sub(t) > v.expiration]. *)
Definition expired (now : Time) (expiration : Duration) (t : Time) : Prop :=
  Sub now t > expiration.

#[global] Instance expired_dec now expiration t : Decision (expired now expiration t).
Proof. unfold expired. apply _. Defined.

(** The loop [for k, t := range v.used { if ... { delete(v.used, k) } }]. *)
Definition clean (now : Time) (expiration : Duration) (m : gmap string Time) :
    gmap string Time :=
  filter (λ kt, ¬ expired now expiration kt.2) m.

(** [v.Validate(ctx, did, nonce)], [now] being what [time.Now().UTC()]
    returns during the call. The result is the pair [(bool, error)] Go
    returns and the validator after the call. *)
Definition Validate (now : Time) (did nonce : string) (v : MemoryNonceValidator) :
    (bool * option error) * MemoryNonceValidator :=
  let key := nonce_key did nonce in
  let cleaned := clean now (expiration v) (used v) in
  match cleaned !! key with
  | Some _ => ((false, None), {| used := cleaned; expiration := expiration v |})
  | None => ((true, None), {| used := <[key := now]> cleaned; expiration := expiration v |})
  end.


End Nonce.

(** ** package strings, on byte strings *)

Module GoStrings.

Local Open Scope char_scope.

Fixpoint length_Z (s : string) : Z :=
  match s with
  | EmptyString => 0
  | String _ s' => 1 + length_Z s'
  end.

Definition byte_of (c : ascii) : Z := Z.of_N (N_of_ascii c).
Definition ascii_of (b : Z) : ascii := ascii_of_N (Z.to_N b).

(** [strings.HasPrefix(s, prefix)] *)
Fixpoint HasPrefix (s prefix : string) {struct prefix} : bool :=
  match prefix, s with
  | EmptyString, _ => true
  | String _ _, EmptyString => false
  | String p prefix', String c s' => if decide (c = p) then HasPrefix s' prefix' else false
  end.

(** [s[n:]] for [n <= len(s)] *)
Fixpoint drop_bytes (n : nat) (s : string) : string :=
  match n, s with
  | O, _ => s
  | S n', String _ s' => drop_bytes n' s'
  | S _, EmptyString => EmptyString
  end.

(** [strings.TrimPrefix(s, prefix)] *)
Definition TrimPrefix (s prefix : string) : string :=
  if HasPrefix s prefix then drop_bytes (String.length prefix) s else s.

(** The UTF-8 encodings of the runes [unicode.IsSpace] accepts:
    the six ASCII ones, U+0085, U+00A0, U+1680, U+2000 to U+200A,
    U+2028, U+2029, U+202F, U+205F and U+3000. *)
Definition space_runes : list string :=
  [ String "009" ""; String "010" ""; String "011" ""; String "012" "";
    String "013" ""; String " " "";
    String "194" (String "133" ""); String "194" (String "160" "");
    String "225" (String "154" (String "128" ""));
    String "226" (String "128" (String "128" ""));
    String "226" (String "128" (String "129" ""));
    String "226" (String "128" (String "130" ""));
    String "226" (String "128" (String "131" ""));
    String "226" (String "128" (String "132" ""));
    String "226" (String "128" (String "133" ""));
    String "226" (String "128" (String "134" ""));
    String "226" (String "128" (String "135" ""));
    String "226" (String "128" (String "136" ""));
    String "226" (String "128" (String "137" ""));
    String "226" (String "128" (String "138" ""));
    String "226" (String "128" (String "168" ""));
    String "226" (String "128" (String "169" ""));
    String "226" (String "128" (String "175" ""));
    String "226" (String "129" (String "159" ""));
    String "227" (String "128" (String "128" "")) ].

(** The length of the white-space rune [s] starts with, if any. *)
Definition leading_space (s : string) : option nat :=
  String.length <$> find (HasPrefix s) space_runes.

(** [strings.TrimLeftFunc(s, unicode.IsSpace)]: [skip] counts the
    bytes of the current rune still to drop. *)
Fixpoint trim_left (skip : nat) (s : string) : string :=
  match skip, s with
  | S n, String _ s' => trim_left n s'
  | S _, EmptyString => EmptyString
  | O, EmptyString => EmptyString
  | O, String _ s' =>
      match leading_space s with
      | Some (S n) => trim_left n s'
      | _ => s
      end
  end.

Definition TrimLeftSpace (s : string) : string := trim_left 0 s.

(** The same from the right end, on the reversed string: a rune's
    bytes then come last byte first. *)
Definition space_runes_rev : list string := String.rev <$> space_runes.

Definition trailing_space_rev (r : string) : option nat :=
  String.length <$> find (HasPrefix r) space_runes_rev.

Fixpoint trim_left_rev (skip : nat) (r : string) : string :=
  match skip, r with
  | S n, String _ r' => trim_left_rev n r'
  | S _, EmptyString => EmptyString
  | O, EmptyString => EmptyString
  | O, String _ r' =>
      match trailing_space_rev r with
      | Some (S n) => trim_left_rev n r'
      | _ => r
      end
  end.

Definition TrimRightSpace (s : string) : string :=
  String.rev (trim_left_rev 0 (String.rev s)).

(** [strings.TrimSpace(s)] *)
Definition TrimSpace (s : string) : string := TrimRightSpace (TrimLeftSpace s).

(** [strings.Index(s, string(c))]: the index of the first byte [c]. *)
Fixpoint IndexByte (s : string) (c : ascii) : option nat :=
  match s with
  | EmptyString => None
  | String x s' => if decide (x = c) then Some O else S <$> IndexByte s' c
  end.

Definition is_ascii_string (s : string) : bool :=
  forallb (λ c, (byte_of c <? 128)%Z) (String.list_ascii_of_string s).

Definition to_lower (c : ascii) : ascii :=
  let b := byte_of c in
  if ((65 <=? b) && (b <=? 90))%Z then ascii_of (b + 32) else c.

Fixpoint fold_eq_ascii (s t : string) : bool :=
  match s, t with
  | EmptyString, EmptyString => true
  | String a s', String b t' =>
      if decide (to_lower a = to_lower b) then fold_eq_ascii s' t' else false
  | _, _ => false
  end.

(** [strings.EqualFold(s, t)]. Between two ASCII strings it is
    equality up to the case of letters. [fold_runes] stands for Unicode
    simple case folding, which decides every other pair: the Kelvin
    sign U+212A folds to [k], so an ASCII string can equal a string
    that is not ASCII. *)
Definition EqualFold (fold_runes : string → string → bool) (s t : string) : bool :=
  if is_ascii_string s && is_ascii_string t then fold_eq_ascii s t
  else fold_runes s t.

End GoStrings.

(** ** time.RFC3339: formatting, and parsing of the UTC form *)

Module RFC3339.

Local Open Scope char_scope.

Definition is_leap (y : Z) : bool :=
  ((y mod 4 =? 0) && (negb (y mod 100 =? 0) || (y mod 400 =? 0)))%Z.

Definition days_in (y m : Z) : Z :=
  if (m =? 2)%Z then (if is_leap y then 29 else 28)
  else if ((m =? 4) || (m =? 6) || (m =? 9) || (m =? 11))%Z then 30
  else 31.

(** Days from 1970-01-01 to the civil date [y-m-d] of the proleptic
    Gregorian calendar. *)
Definition days_from_civil (y m d : Z) : Z :=
  let y' := if (m <=? 2)%Z then y - 1 else y in
  let era := y' / 400 in
  let yoe := y' - era * 400 in
  let mp := if (2 <? m)%Z then m - 3 else m + 9 in
  let doy := (153 * mp + 2) / 5 + d - 1 in
  let doe := yoe * 365 + yoe / 4 - yoe / 100 + doy in
  era * 146097 + doe - 719468.

(** The civil date of the day [z] days after 1970-01-01. *)
Definition civil_from_days (z : Z) : Z * Z * Z :=
  let z := z + 719468 in
  let era := z / 146097 in
  let doe := z - era * 146097 in
  let yoe := (doe - doe / 1460 + doe / 36524 - doe / 146096) / 365 in
  let doy := doe - (365 * yoe + yoe / 4 - yoe / 100) in
  let mp := (5 * doy + 2) / 153 in
  let d := doy - (153 * mp + 2) / 5 + 1 in
  let m := if (mp <? 10)%Z then mp + 3 else mp - 9 in
  (yoe + era * 400 + (if (m <=? 2)%Z then 1 else 0), m, d).

Definition digit (c : ascii) : option Z :=
  let b := GoStrings.byte_of c in
  if ((48 <=? b) && (b <=? 57))%Z then Some (b - 48) else None.

Definition two (a b : ascii) : option Z :=
  x ← digit a; y ← digit b; Some (10 * x + y).

(** [time.Parse(time.RFC3339, s)] on the form [YYYY-MM-DDTHH:MM:SSZ],
    which is the form [Format] below emits; [None] on any other
    input. The fields are range-checked as Go does: month 1 to 12, day
    within the month, hour below 24, minute and second below 60. *)
Definition parse_utc (s : string) : option Time :=
  match String.list_ascii_of_string s with
  | [y1; y2; y3; y4; "-"; m1; m2; "-"; d1; d2; "T";
     h1; h2; ":"; n1; n2; ":"; s1; s2; "Z"] =>
      yh ← two y1 y2; yl ← two y3 y4;
      mo ← two m1 m2; dd ← two d1 d2;
      hh ← two h1 h2; mi ← two n1 n2; ss ← two s1 s2;
      let y := 100 * yh + yl in
      if ((1 <=? mo) && (mo <=? 12) && (1 <=? dd) && (dd <=? days_in y mo)
          && (hh <? 24) && (mi <? 60) && (ss <? 60))%Z
      then Some ((((days_from_civil y mo dd * 24 + hh) * 60 + mi) * 60 + ss) * Second)
      else None
  | _ => None
  end.

Definition digit_char (d : Z) : ascii := GoStrings.ascii_of (48 + d).

(** The decimal digits of [n >= 0], at least [width] of them. *)
Fixpoint digits (fuel : nat) (width : nat) (n : Z) (acc : string) : string :=
  match fuel with
  | O => acc
  | S fuel' =>
      let acc' := String (digit_char (n mod 10)) acc in
      if (n / 10 =? 0)%Z && bool_decide (width <= 1)%nat then acc'
      else digits fuel' (Nat.pred width) (n / 10) acc'
  end.

(** Go's [appendInt(b, x, width)]. *)
Definition appendInt (x : Z) (width : nat) : string :=
  if (x <? 0)%Z then String "-" (digits 40 width (- x) "")
  else digits 40 width x "".

(** [t.UTC().Format(time.RFC3339)]: seconds precision, zone [Z]. *)
Definition Format (t : Time) : string :=
  let secs := t / Second in
  let days := secs / 86400 in
  let rem := secs mod 86400 in
  let '(y, m, d) := civil_from_days days in
  appendInt y 4 +:+ "-" +:+ appendInt m 2 +:+ "-" +:+ appendInt d 2 +:+ "T"
  +:+ appendInt (rem / 3600) 2 +:+ ":" +:+ appendInt (rem / 60 mod 60) 2 +:+ ":"
  +:+ appendInt (rem mod 60) 2 +:+ "Z".

End RFC3339.

(** ** Byte sequences, math/big conversions, encoding/base64 *)

Module Bytes.

(** A [[]byte] is a list of numbers below 256. *)
Abbreviation bytes := (list Z) (only parsing).

Definition of_string (s : string) : bytes :=
  GoStrings.byte_of <$> String.list_ascii_of_string s.

Definition to_string (b : bytes) : string :=
  String.string_of_list_ascii (GoStrings.ascii_of <$> b).

(** [new(big.Int).SetBytes(b)]: big-endian. *)
Definition SetBytes (b : bytes) : Z := foldl (λ acc x, acc * 256 + x) 0 b.

(** [x.Bytes()] for [x >= 0]: big-endian, no leading zero. *)
Fixpoint be_bytes_pos (p : positive) (fuel : nat) (acc : bytes) : bytes :=
  match fuel with
  | O => acc
  | S fuel' =>
      let x := Z.pos p in
      match x / 256 with
      | Z.pos q => be_bytes_pos q fuel' (x mod 256 :: acc)
      | _ => x mod 256 :: acc
      end
  end.

Definition BigBytes (x : Z) : bytes :=
  match x with
  | Z.pos p => be_bytes_pos p (Pos.size_nat p) []
  | _ => []
  end.

(** [x] as exactly [size] big-endian bytes, the low [size] ones. *)
Fixpoint be_fixed (size : nat) (x : Z) (acc : bytes) : bytes :=
  match size with
  | O => acc
  | S n => be_fixed n (x / 256) (x mod 256 :: acc)
  end.

(** [buf := make([]byte, size); copy(buf[size-len(b):], b)] for
    [len(b) <= size]. *)
Definition left_pad (size : nat) (b : bytes) : bytes :=
  replicate (size - length b) 0 ++ b.

End Bytes.

Module Base64.

(** The alphabet of [base64.RawURLEncoding]. *)
Definition encode_sextet (v : Z) : ascii :=
  if v <? 26 then GoStrings.ascii_of (65 + v)
  else if v <? 52 then GoStrings.ascii_of (97 + (v - 26))
  else if v <? 62 then GoStrings.ascii_of (48 + (v - 52))
  else if v =? 62 then "-"%char else "_"%char.

Definition decode_sextet (c : ascii) : option Z :=
  let b := GoStrings.byte_of c in
  if (65 <=? b) && (b <=? 90) then Some (b - 65)
  else if (97 <=? b) && (b <=? 122) then Some (b - 97 + 26)
  else if (48 <=? b) && (b <=? 57) then Some (b - 48 + 52)
  else if b =? 45 then Some 62
  else if b =? 95 then Some 63
  else None.

(** [base64.RawURLEncoding.EncodeToString(b)]: no padding. *)
Fixpoint EncodeToString (b : list Z) : string :=
  match b with
  | [] => ""
  | [x] =>
      String (encode_sextet (x / 4))
        (String (encode_sextet (x mod 4 * 16)) "")
  | [x; y] =>
      String (encode_sextet (x / 4))
        (String (encode_sextet (x mod 4 * 16 + y / 16))
           (String (encode_sextet (y mod 16 * 4)) ""))
  | x :: y :: z :: rest =>
      String (encode_sextet (x / 4))
        (String (encode_sextet (x mod 4 * 16 + y / 16))
           (String (encode_sextet (y mod 16 * 4 + z / 64))
              (String (encode_sextet (z mod 64)) (EncodeToString rest))))
  end.

(** The sextets of the input; carriage returns and line feeds are
    skipped, any other byte outside the alphabet (the padding byte
    included) is an error. *)
Fixpoint sextets (s : string) : option (list Z) :=
  match s with
  | EmptyString => Some []
  | String c s' =>
      if decide (c = "010"%char) then sextets s'
      else if decide (c = "013"%char) then sextets s'
      else v ← decode_sextet c; r ← sextets s'; Some (v :: r)
  end.

Fixpoint decode_quanta (v : list Z) : option (list Z) :=
  match v with
  | [] => Some []
  | [_] => None
  | [a; b] => Some [a * 4 + b / 16]
  | [a; b; c] => Some [a * 4 + b / 16; b mod 16 * 16 + c / 4]
  | a :: b :: c :: d :: rest =>
      r ← decode_quanta rest;
      Some (a * 4 + b / 16 :: b mod 16 * 16 + c / 4 :: c mod 4 * 64 + d :: r)
  end.

(** [base64.RawURLEncoding.DecodeString(s)], [None] for an error.
    The encoding is not strict: trailing bits of the last quantum are
    ignored. *)
Definition DecodeString (s : string) : option (list Z) :=
  v ← sextets s; decode_quanta v.

End Base64.

(** ** crypto/sha256 (FIPS 180-4), on 32-bit words held in [Z] *)

Module SHA256.

Definition mask32 : Z := 0xFFFFFFFF.
Definition w32 (x : Z) : Z := Z.land x mask32.
Definition add32 (x y : Z) : Z := w32 (x + y).
Definition rotr (n x : Z) : Z := Z.lor (Z.shiftr x n) (w32 (Z.shiftl x (32 - n))).
Definition not32 (x : Z) : Z := Z.lxor x mask32.

Definition Ch (x y z : Z) : Z := Z.lxor (Z.land x y) (Z.land (not32 x) z).
Definition Maj (x y z : Z) : Z :=
  Z.lxor (Z.lxor (Z.land x y) (Z.land x z)) (Z.land y z).
Definition bigSigma0 (x : Z) : Z := Z.lxor (Z.lxor (rotr 2 x) (rotr 13 x)) (rotr 22 x).
Definition bigSigma1 (x : Z) : Z := Z.lxor (Z.lxor (rotr 6 x) (rotr 11 x)) (rotr 25 x).
Definition sigma0 (x : Z) : Z := Z.lxor (Z.lxor (rotr 7 x) (rotr 18 x)) (Z.shiftr x 3).
Definition sigma1 (x : Z) : Z := Z.lxor (Z.lxor (rotr 17 x) (rotr 19 x)) (Z.shiftr x 10).

(** The first [n] primes: FIPS 180-4 derives its constants from them. *)
Definition is_prime (n : Z) : bool :=
  (1 <? n) && forallb (λ d, negb (n mod d =? 0)) (seqZ 2 (Z.sqrt n - 1)).

Definition first_primes (n : nat) : list Z := take n (filter is_prime (seqZ 2 310)).

(** The integer cube root of [n < 2 ^ 108], found bit by bit. *)
Definition cube_root (n : Z) : Z :=
  foldl (λ r b, let r' := r + 2 ^ b in if r' * r' * r' <=? n then r' else r)
        0 (rev (seqZ 0 36)).

(** The round constants: the first 32 bits of the fractional parts of
    the cube roots of the first 64 primes. *)
Definition K : list Z :=
  Eval vm_compute in (λ p, w32 (cube_root (p * 2 ^ 96))) <$> first_primes 64.

(** The initial hash value: the same of the square roots of the first
    eight primes. *)
Definition H0 : list Z :=
  Eval vm_compute in (λ p, w32 (Z.sqrt (p * 2 ^ 64))) <$> first_primes 8.

(** The padded message: a [0x80] byte, zeros up to 56 modulo 64, and
    the bit length as eight big-endian bytes. *)
Definition pad (msg : list Z) : list Z :=
  let n := Z.of_nat (length msg) in
  let zeros := Z.to_nat ((55 - n) mod 64) in
  msg ++ [0x80] ++ replicate zeros 0 ++ Bytes.be_fixed 8 (8 * n) [].

(** Big-endian 32-bit words of a byte sequence whose length is a
    multiple of four. *)
Fixpoint words (b : list Z) : list Z :=
  match b with
  | a :: b' :: c :: d :: rest => (((a * 256 + b') * 256 + c) * 256 + d) :: words rest
  | _ => []
  end.

(** The 64-byte blocks, as lists of sixteen words. *)
Fixpoint blocks (fuel : nat) (w : list Z) : list (list Z) :=
  match fuel, w with
  | S fuel', _ :: _ => take 16 w :: blocks fuel' (drop 16 w)
  | _, _ => []
  end.

(** The message schedule: [rev_w] holds [W[t-1], W[t-2], ...]. *)
Fixpoint schedule (n : nat) (rev_w : list Z) : list Z :=
  match n with
  | O => rev rev_w
  | S n' =>
      let at_ i := nth i rev_w 0 in
      let w := add32 (add32 (add32 (sigma1 (at_ 1%nat)) (at_ 6%nat))
                        (sigma0 (at_ 14%nat))) (at_ 15%nat) in
      schedule n' (w :: rev_w)
  end.

Definition round (st : list Z) (kw : Z * Z) : list Z :=
  match st with
  | [a; b; c; d; e; f; g; h] =>
      let t1 := add32 (add32 (add32 (add32 h (bigSigma1 e)) (Ch e f g)) kw.1) kw.2 in
      let t2 := add32 (bigSigma0 a) (Maj a b c) in
      [add32 t1 t2; a; b; c; add32 d t1; e; f; g]
  | _ => st
  end.

Definition compress (h : list Z) (block : list Z) : list Z :=
  let w := schedule 48 (rev block) in
  let st := foldl round h (zip K w) in
  zip_with add32 h st.

(** [sha256.Sum256(msg)], as 32 bytes. *)
Definition Sum256 (msg : list Z) : list Z :=
  let w := words (pad msg) in
  let h := foldl compress H0 (blocks (length w) w) in
  h ≫= λ x, Bytes.be_fixed 4 x [].

Definition hex_digit (v : Z) : ascii :=
  if v <? 10 then GoStrings.ascii_of (48 + v) else GoStrings.ascii_of (87 + v).

Definition hex (b : list Z) : string :=
  String.string_of_list_ascii (b ≫= λ x, [hex_digit (x / 16); hex_digit (x mod 16)]).

End SHA256.

(** ** The curve secp256k1 and crypto/ecdsa over it

    [crypto.Secp256k1()] returns go-ethereum's [S256()], a generic
    [elliptic.Curve]; [ecdsa.Sign] and [ecdsa.Verify] then take the
    generic path of the standard library (SEC 1, sections 4.1.3 and
    4.1.4). Both libraries are outside the repository; they are
    modelled by the arithmetic they implement, the field arithmetic
    being carried out on [bigZ] so that the model runs. A point is
    [None] at infinity (Go's pair of zeros). *)

Module Secp256k1.

Definition P : Z := 0xFFFFFFFFFFFFFFFFFFFFFFFFFFFFFFFFFFFFFFFFFFFFFFFFFFFFFFFEFFFFFC2F.
Definition N : Z := 0xFFFFFFFFFFFFFFFFFFFFFFFFFFFFFFFEBAAEDCE6AF48A03BBFD25E8CD0364141.
Definition B : Z := 7.
Definition Gx : Z := 0x79BE667EF9DCBBAC55A06295CE870B07029BFCDB2DCE28D959F2815B16F81798.
Definition Gy : Z := 0x483ADA7726A3C4655DA4FBFC0E1108A8FD17B448A68554199C47D08FFB10D4B8.
Definition BitSize : Z := 256.

(** [(curve.Params().BitSize + 7) / 8] *)
Definition byte_size : nat := Z.to_nat ((BitSize + 7) / 8).

Definition point : Type := option (Z * Z).

Definition bpoint : Type := option (bigZ * bigZ).

Definition bP : bigZ := BigZ.of_Z P.

(** The extended Euclidean algorithm: the coefficient of [a]. *)
Fixpoint egcd (fuel : nat) (a b x0 x1 : bigZ) : bigZ :=
  match fuel with
  | O => x0
  | S f =>
      if (b =? 0)%bigZ then x0
      else egcd f b (a mod b)%bigZ x1 (x0 - (a / b) * x1)%bigZ
  end.

(** [new(big.Int).ModInverse(a, m)] for [a] prime to [m]. *)
Definition mod_inverse (a m : bigZ) : bigZ :=
  (egcd 1024 (a mod m) m 1 0 mod m)%bigZ.

(** The group law in affine coordinates. *)
Definition badd (p q : bpoint) : bpoint :=
  match p, q with
  | None, _ => q
  | _, None => p
  | Some (x1, y1), Some (x2, y2) =>
      if (x1 =? x2)%bigZ then
        if ((y1 + y2) mod bP =? 0)%bigZ then None
        else
          let l := (3 * x1 * x1 * mod_inverse (2 * y1) bP mod bP)%bigZ in
          let x3 := ((l * l - 2 * x1) mod bP)%bigZ in
          Some (x3, ((l * (x1 - x3) - y1) mod bP)%bigZ)
      else
        let l := ((y2 - y1) * mod_inverse (x2 - x1) bP mod bP)%bigZ in
        let x3 := ((l * l - x1 - x2) mod bP)%bigZ in
        Some (x3, ((l * (x1 - x3) - y1) mod bP)%bigZ)
  end.

Fixpoint bmul (k : positive) (p : bpoint) : bpoint :=
  match k with
  | xH => p
  | xO k' => bmul k' (badd p p)
  | xI k' => badd p (bmul k' (badd p p))
  end.

Definition to_bpoint (p : point) : bpoint :=
  match p with
  | Some (x, y) => Some (BigZ.of_Z x, BigZ.of_Z y)
  | None => None
  end.

Definition of_bpoint (p : bpoint) : point :=
  match p with
  | Some (x, y) => Some (BigZ.to_Z x, BigZ.to_Z y)
  | None => None
  end.

(** [curve.Add(x1, y1, x2, y2)] *)
Definition Add (p q : point) : point := of_bpoint (badd (to_bpoint p) (to_bpoint q)).

(** [curve.ScalarMult(x, y, k.Bytes())] for [k >= 0] *)
Definition ScalarMult (p : point) (k : Z) : point :=
  match k with
  | Z.pos k' => of_bpoint (bmul k' (to_bpoint p))
  | _ => None
  end.

(** [curve.ScalarBaseMult(k.Bytes())] *)
Definition ScalarBaseMult (k : Z) : point := ScalarMult (Some (Gx, Gy)) k.

(** [curve.IsOnCurve(x, y)]: [y^2 = x^3 + 7] modulo [P]. *)
Definition IsOnCurve (x y : Z) : bool :=
  (x * x * x + B) mod P =? (y * y) mod P.

End Secp256k1.

Module ECDSA.

(** [ecdsa.PublicKey] and [ecdsa.PrivateKey] on secp256k1. *)
Record PublicKey : Type := { X : Z; Y : Z }.
Record PrivateKey : Type := { Public : PublicKey; D : Z }.

(** [ecdsa.GenerateKey(curve, rand.Reader)], [d] being the scalar
    drawn from [1, N-1]. *)
Definition GenerateKey (d : Z) : option PrivateKey :=
  match Secp256k1.ScalarBaseMult d with
  | Some (x, y) => Some {| Public := {| X := x; Y := y |}; D := d |}
  | None => None
  end.

(** [hashToInt]: the leftmost 256 bits of the digest. *)
Definition hashToInt (hash : list Z) : Z := Bytes.SetBytes (take 32 hash).

(** [ecdsa.Sign(rand.Reader, priv, hash)] with the nonce [k] the
    generator yields, in [1, N-1]. [None] is a draw Go discards ([r]
    or [s] is zero) before drawing again. *)
Definition Sign (priv : PrivateKey) (k : Z) (hash : list Z) : option (Z * Z) :=
  let n := Secp256k1.N in
  if negb ((1 <=? k) && (k <? n)) then None else
  match Secp256k1.ScalarBaseMult k with
  | None => None
  | Some (x, _) =>
      let r := x mod n in
      if r =? 0 then None else
      let kInv := BigZ.to_Z (Secp256k1.mod_inverse (BigZ.of_Z k) (BigZ.of_Z n)) in
      let s := ((D priv * r + hashToInt hash) * kInv) mod n in
      if s =? 0 then None else Some (r, s)
  end.

(** [ecdsa.Verify(pub, hash, r, s)] *)
Definition Verify (pub : PublicKey) (hash : list Z) (r s : Z) : bool :=
  let n := Secp256k1.N in
  if (r <=? 0) || (s <=? 0) then false
  else if (n <=? r) || (n <=? s) then false
  else
    let e := hashToInt hash in
    let w := BigZ.to_Z (Secp256k1.mod_inverse (BigZ.of_Z s) (BigZ.of_Z n)) in
    let u1 := (e * w) mod n in
    let u2 := (r * w) mod n in
    let p1 := Secp256k1.ScalarBaseMult u1 in
    let p2 := Secp256k1.ScalarMult (Some (X pub, Y pub)) u2 in
    match Secp256k1.Add p1 p2 with
    | None => false
    | Some (x, _) => x mod n =? r
    end.

End ECDSA.

(** ** What the code takes from outside the repository

    [Library] gathers the deterministic functions of the Go libraries
    that are used but not modelled; [World] gathers what one call
    reads from its environment. *)

Module Doc.

(** [any] values, as far as the code inspects them. *)
Record JWK : Type := {
  Kty : string; Crv : string; jwk_X : string; jwk_Y : string; Kid : string
}.

#[warnings="-register-all"]
Inductive any : Type :=
| AnyString (s : string)
| AnyJWK (j : JWK)                      (* the Go struct value *)
| AnyMap (m : list (string * any))      (* map[string]any *)
| AnyOther.                             (* any other dynamic type *)

(** [m[k]] on a [map[string]any] given by its entries. *)
Definition map_get (k : string) (m : list (string * any)) : option any :=
  snd <$> find (λ kv, bool_decide (kv.1 = k)) m.

Record Service : Type := {
  svc_ID : string; svc_Type : string; ServiceEndpoint : string
}.

Record DIDWBADocument : Type := {
  Context : list string;
  ID : string;
  VerificationMethod : list (list (string * any));
  Authentication : list string;
  Services : list Service
}.

End Doc.

Import Doc.

Class Library : Type := {
  (** a JWT signing or verification key ([any] in Go) *)
  JWTKey : Type;
  LoadJWTPrivateKeyFromPEM : string → error + JWTKey;
  LoadJWTPublicKeyFromPEM : string → error + JWTKey;
  (** [url.Parse(target)] then [.Host] *)
  url_Parse_Host : string → error + string;
  (** [net.ParseIP(s) != nil] *)
  net_ParseIP : string → bool;
  (** Unicode simple case folding, see [GoStrings.EqualFold] *)
  fold_runes : string → string → bool;
  (** [time.Parse(time.RFC3339, s)] outside the form of [RFC3339.parse_utc] *)
  time_Parse_other : string → option Time
}.

(** [time.Parse(time.RFC3339, s)], [None] for an error. *)
Definition time_Parse `{Library} (s : string) : option Time :=
  match RFC3339.parse_utc s with
  | Some t => Some t
  | None => time_Parse_other s
  end.

(** An HTTP exchange, reduced to what the clients look at. *)
Record Request : Type := {
  req_Method : string; req_URL : string; req_Header : gmap string string
}.

Record Response : Type := {
  StatusCode : Z; resp_Header : gmap string string; resp_Body : error + string
}.

Record World `{Library} : Type := {
  (** [time.Now()] *)
  time_Now : Time;
  (** [uuid.NewString()] *)
  uuid_NewString : string;
  (** the scalars [crypto/rand] yields to [ecdsa.GenerateKey] and
      [ecdsa.Sign] *)
  rand_key : Z;
  rand_nonce : Z;
  (** [VerifyAccessToken(token, key, alg)]: the JWT library's verdict
      and the [sub] claim *)
  jwt_verify : string → JWTKey → string → error + string;
  (** [CreateAccessToken(did, key, alg, expiration)] *)
  jwt_sign : string → JWTKey → string → Duration → error + string;
  (** [ResolveDIDWBADocument(did, client)]: the HTTPS fetch of the
      document and its decoding *)
  http_resolve : string → error + DIDWBADocument;
  (** the [i]-th HTTP exchange of the call: the transport's answer
      to the request *)
  http_do : nat → Request → error + Response;
  (** reading and decoding the DID document and the private key from
      the two paths *)
  load_material : string → string → error + (DIDWBADocument * ECDSA.PrivateKey)
}.

(** ** did_wba.go and verification_method.go *)

Module DidWba.

(** [AuthHeader] *)
Record AuthHeader : Type := {
  DID : string;
  Nonce : string;
  Timestamp : string;
  VerificationMethod : string;
  Signature : string
}.

(** The double quote, as a byte and as a one-byte string. *)
Definition dquote : ascii := "034"%char.
Definition dq : string := String dquote "".

(** [h.String()] *)
Definition String_ (h : AuthHeader) : string :=
  "DIDWba did=" +:+ dq +:+ DID h +:+ dq
  +:+ ", nonce=" +:+ dq +:+ Nonce h +:+ dq
  +:+ ", timestamp=" +:+ dq +:+ Timestamp h +:+ dq
  +:+ ", verification_method=" +:+ dq +:+ VerificationMethod h +:+ dq
  +:+ ", signature=" +:+ dq +:+ Signature h +:+ dq.

(** The regular expression of [parseAuthHeader]: one of five keys, an
    equals sign, a double quote, any bytes but a double quote, and a
    double quote. The keys, in the order of the alternation: *)
Definition header_keys : list string :=
  ["did"; "nonce"; "timestamp"; "verification_method"; "signature"].

(** The bytes up to the next double quote; [None] when there is none. *)
Fixpoint quoted_value (s : string) : option string :=
  match s with
  | EmptyString => None
  | String c s' =>
      if decide (c = dquote) then Some EmptyString
      else String c <$> quoted_value s'
  end.

(** A match of key [k] at the start of [s]: the value and the length
    of the match. *)
Definition match_key (s k : string) : option (string * nat) :=
  let opening := k +:+ "=" +:+ dq in
  if GoStrings.HasPrefix s opening then
    (λ v, (v, String.length opening + String.length v + 1)%nat)
      <$> quoted_value (GoStrings.drop_bytes (String.length opening) s)
  else None.

(** The match at the start of [s], the first alternative first. *)
Definition match_at (s : string) : option (string * string * nat) :=
  foldr (λ k rest,
           match match_key s k with
           | Some (v, len) => Some (k, v, len)
           | None => rest
           end) None header_keys.

(** [re.FindAllStringSubmatch(s, -1)], each match as (key, value):
    the leftmost match, then the leftmost one after it, and so on.
    [skip] counts the bytes of the last match still to pass. *)
Fixpoint find_all (skip : nat) (s : string) : list (string * string) :=
  match s with
  | EmptyString => []
  | String _ s' =>
      match skip with
      | S n => find_all n s'
      | O =>
          match match_at s with
          | Some (k, v, len) => (k, v) :: find_all (Nat.pred len) s'
          | None => find_all O s'
          end
      end
  end.

Definition FindAllStringSubmatch (s : string) : list (string * string) :=
  find_all O s.

(** The [switch match[1]] of the loop over the matches. *)
Definition assign (parts : AuthHeader) (m : string * string) : AuthHeader :=
  let '(k, v) := m in
  if decide (k = "did") then
    {| DID := v; Nonce := Nonce parts; Timestamp := Timestamp parts;
       VerificationMethod := VerificationMethod parts; Signature := Signature parts |}
  else if decide (k = "nonce") then
    {| DID := DID parts; Nonce := v; Timestamp := Timestamp parts;
       VerificationMethod := VerificationMethod parts; Signature := Signature parts |}
  else if decide (k = "timestamp") then
    {| DID := DID parts; Nonce := Nonce parts; Timestamp := v;
       VerificationMethod := VerificationMethod parts; Signature := Signature parts |}
  else if decide (k = "verification_method") then
    {| DID := DID parts; Nonce := Nonce parts; Timestamp := Timestamp parts;
       VerificationMethod := v; Signature := Signature parts |}
  else if decide (k = "signature") then
    {| DID := DID parts; Nonce := Nonce parts; Timestamp := Timestamp parts;
       VerificationMethod := VerificationMethod parts; Signature := v |}
  else parts.

Definition empty_header : AuthHeader :=
  {| DID := ""; Nonce := ""; Timestamp := ""; VerificationMethod := ""; Signature := "" |}.

Definition is_empty_string (s : string) : bool := bool_decide (s = "").

(** [parseAuthHeader(header)] *)
Definition parseAuthHeader (header : string) : error + AuthHeader :=
  let header := GoStrings.TrimSpace header in
  if is_empty_string header then
    inl (ErrNew "authorization header cannot be empty")
  else if negb (GoStrings.HasPrefix header "DIDWba") then
    inl (ErrNew "authorization header must start with 'DIDWba'")
  else
    let header := GoStrings.TrimSpace (GoStrings.TrimPrefix header "DIDWba") in
    let matches := FindAllStringSubmatch header in
    match matches with
    | [] => inl (ErrNew "invalid auth header format")
    | _ =>
        let parts := foldl assign empty_header matches in
        if is_empty_string (DID parts) || is_empty_string (Nonce parts)
           || is_empty_string (Timestamp parts)
           || is_empty_string (VerificationMethod parts)
           || is_empty_string (Signature parts)
        then inl (ErrNew "invalid auth header format")
        else inr parts
    end.

(** [authPayload] *)
Record authPayload : Type := {
  p_Nonce : string; p_Time : string; p_Service : string; p_DID : string
}.

(** A byte of a string in its JSON form under RFC 8785: the two-byte
    escapes, [\u00xx] for the other control bytes, and the byte itself
    otherwise (bytes from 128 up belong to UTF-8 sequences, which are
    copied). *)
Definition jcs_byte (c : ascii) : string :=
  let b := GoStrings.byte_of c in
  if b =? 8 then "\b" else if b =? 9 then "\t" else if b =? 10 then "\n"
  else if b =? 12 then "\f" else if b =? 13 then "\r"
  else if b =? 34 then String "\"%char dq
  else if b =? 92 then "\\"
  else if b <? 32 then
    "\u00" +:+ String (SHA256.hex_digit (b / 16)) (String (SHA256.hex_digit (b mod 16)) "")
  else String c "".

Fixpoint jcs_bytes (s : string) : string :=
  match s with
  | EmptyString => EmptyString
  | String c s' => jcs_byte c +:+ jcs_bytes s'
  end.

Definition jcs_string (s : string) : string := dq +:+ jcs_bytes s +:+ dq.

(** [p.marshal()]: [sonic.Marshal] of the struct, then
    [jsoncanonicalizer.Transform], which orders the members by name. *)
Definition marshal (p : authPayload) : error + list Z :=
  inr (Bytes.of_string
         ("{" +:+ jcs_string "did" +:+ ":" +:+ jcs_string (p_DID p)
          +:+ "," +:+ jcs_string "nonce" +:+ ":" +:+ jcs_string (p_Nonce p)
          +:+ "," +:+ jcs_string "service" +:+ ":" +:+ jcs_string (p_Service p)
          +:+ "," +:+ jcs_string "timestamp" +:+ ":" +:+ jcs_string (p_Time p)
          +:+ "}")).

(** [marshalSignature(curve, r, s)] *)
Definition marshalSignature (r s : Z) : error + string :=
  let size := Secp256k1.byte_size in
  let rb := Bytes.BigBytes r in
  let sb := Bytes.BigBytes s in
  if bool_decide (size < length rb)%nat || bool_decide (size < length sb)%nat then
    inl (ErrNew "signature component larger than curve size")
  else
    inr (Base64.EncodeToString (Bytes.left_pad size rb ++ Bytes.left_pad size sb)).

(** [unmarshalSignature(curve, sig)] *)
Definition unmarshalSignature (sig : list Z) : error + (Z * Z) :=
  let size := Secp256k1.byte_size in
  if bool_decide (length sig ≠ (size * 2)%nat) then
    inl (ErrNew "invalid signature length")
  else inr (Bytes.SetBytes (take size sig), Bytes.SetBytes (drop size sig)).

(** [signPayload(privateKey, payload)]; [k] is the scalar the random
    source yields to [ecdsa.Sign], and a draw [ecdsa.Sign] cannot use
    stands for a failing source. *)
Definition signPayload (privateKey : option ECDSA.PrivateKey) (k : Z)
    (payload : authPayload) : error + string :=
  match privateKey with
  | None => inl (ErrNew "private key is required")
  | Some key =>
      match marshal payload with
      | inl err => inl (ErrWrap "failed to marshal payload" err)
      | inr data =>
          let digest := SHA256.Sum256 data in
          let finalDigest := SHA256.Sum256 digest in
          match ECDSA.Sign key k finalDigest with
          | None => inl (ErrWrap "failed to sign payload" (ErrNew "random source"))
          | Some (r, s) => marshalSignature r s
          end
      end
  end.

(** [padAndEncode(value, size)], for a value of at most [size] bytes. *)
Definition padAndEncode (value : Z) (size : nat) : string :=
  Base64.EncodeToString (Bytes.left_pad size (Bytes.BigBytes value)).

(** [compressPoint(publicKey)] *)
Definition compressPoint (pub : ECDSA.PublicKey) : list Z :=
  let size := Secp256k1.byte_size in
  (if Z.testbit (ECDSA.Y pub) 0 then 3 else 2)
    :: Bytes.left_pad size (Bytes.BigBytes (ECDSA.X pub)).

Definition hashSHA256 (data : list Z) : list Z := SHA256.Sum256 data.

(** [buildPublicKeyJWK(publicKey)] *)
Definition buildPublicKeyJWK (pub : ECDSA.PublicKey) : JWK :=
  let coordSize := Secp256k1.byte_size in
  {| Kty := "EC";
     Crv := "secp256k1";
     jwk_X := padAndEncode (ECDSA.X pub) coordSize;
     jwk_Y := padAndEncode (ECDSA.Y pub) coordSize;
     Kid := Base64.EncodeToString (hashSHA256 (compressPoint pub)) |}.

(** [selectVerificationMethodForFragment(doc, fragment)] *)
Definition selectVerificationMethodForFragment (doc : DIDWBADocument)
    (fragment : string) : error + (list (string * any) * string) :=
  if is_empty_string fragment then
    inl (ErrNew "verification method fragment cannot be empty")
  else
    let verificationMethodID := ID doc +:+ "#" +:+ fragment in
    match find (λ method,
                  match map_get "id" method with
                  | Some (AnyString id) => bool_decide (id = verificationMethodID)
                  | _ => false
                  end) (Doc.VerificationMethod doc) with
    | Some method => inr (method, fragment)
    | None => inl (ErrNew ("verification method not found: " +:+ fragment))
    end.

(** [selectVerificationMethod(doc)] *)
Definition selectVerificationMethod (doc : DIDWBADocument) :
    error + (list (string * any) * string) :=
  match Authentication doc with
  | [] => inl (ErrNew "did document missing authentication methods")
  | reference :: _ =>
      let fragment :=
        match GoStrings.IndexByte reference "#"%char with
        | Some idx => GoStrings.drop_bytes (S idx) reference
        | None => reference
        end in
      selectVerificationMethodForFragment doc fragment
  end.

Definition VerificationMethodEcdsaSecp256k1 : string :=
  "EcdsaSecp256k1VerificationKey2019".

(** The one implementation of the interface [VerificationMethod]. *)
Record EcdsaSecp256k1VerificationKey2019 : Type := {
  PublicKey : ECDSA.PublicKey
}.

(** [v.VerifySignature(content, signature)] *)
Definition VerifySignature (v : EcdsaSecp256k1VerificationKey2019)
    (content : list Z) (signature : string) : bool :=
  match Base64.DecodeString signature with
  | None => false
  | Some sigBytes =>
      match unmarshalSignature sigBytes with
      | inl _ => false
      | inr (r, s) =>
          let digest := SHA256.Sum256 content in
          ECDSA.Verify (PublicKey v) digest r s
      end
  end.

(** A string member of the JWK read from a map through JSON: the
    member as named in the struct tag, absent members and nulls left
    empty, any other value a decoding error. (The decoder also accepts
    a name written in another letter case.) *)
Definition jwk_member (m : list (string * any)) (name : string) : option string :=
  match map_get name m with
  | None => Some ""
  | Some (AnyString s) => Some s
  | Some _ => None
  end.

(** [sonic.Marshal(jwkMap)] then [sonic.Unmarshal(jwkBytes, &jwk)] *)
Definition jwk_of_map (m : list (string * any)) : error + JWK :=
  match jwk_member m "kty", jwk_member m "crv", jwk_member m "x",
        jwk_member m "y", jwk_member m "kid" with
  | Some kty, Some crv, Some x, Some y, Some kid =>
      inr {| Kty := kty; Crv := crv; jwk_X := x; jwk_Y := y; Kid := kid |}
  | _, _, _, _, _ =>
      inl (ErrWrap "failed to unmarshal publicKeyJwk" (ErrNew "json: type mismatch"))
  end.

(** [NewEcdsaSecp256k1VerificationKey2019(methodMap)] *)
Definition NewEcdsaSecp256k1VerificationKey2019 (methodMap : list (string * any)) :
    error + EcdsaSecp256k1VerificationKey2019 :=
  match map_get "publicKeyJwk" methodMap with
  | Some (AnyMap jwkMap) =>
      match jwk_of_map jwkMap with
      | inl err => inl err
      | inr jwk =>
          if negb (bool_decide (Kty jwk = "EC")) || negb (bool_decide (Crv jwk = "secp256k1"))
          then inl (ErrNew ("unsupported JWK parameters for secp256k1: kty="
                             +:+ Kty jwk +:+ ", crv=" +:+ Crv jwk))
          else
            match Base64.DecodeString (jwk_X jwk) with
            | None => inl (ErrWrap "invalid JWK 'x' coordinate" (ErrNew "illegal base64 data"))
            | Some xBytes =>
                match Base64.DecodeString (jwk_Y jwk) with
                | None => inl (ErrWrap "invalid JWK 'y' coordinate" (ErrNew "illegal base64 data"))
                | Some yBytes =>
                    let x := Bytes.SetBytes xBytes in
                    let y := Bytes.SetBytes yBytes in
                    if negb (Secp256k1.IsOnCurve x y) then
                      inl (ErrNew "public key is not on the secp256k1 curve")
                    else
                      inr {| PublicKey := {| ECDSA.X := x; ECDSA.Y := y |} |}
                end
            end
      end
  | _ => inl (ErrNew "publicKeyJwk not found or not a map")
  end.

(** [CreateVerificationMethod(methodMap)]: the factory has the one
    entry [VerificationMethodEcdsaSecp256k1]. *)
Definition CreateVerificationMethod (methodMap : list (string * any)) :
    error + EcdsaSecp256k1VerificationKey2019 :=
  match map_get "type" methodMap with
  | Some (AnyString methodType) =>
      if bool_decide (methodType = VerificationMethodEcdsaSecp256k1) then
        NewEcdsaSecp256k1VerificationKey2019 methodMap
      else inl (ErrNew ("unsupported verification method type: " +:+ methodType))
  | _ => inl (ErrNew "verification method 'type' not found or not a string")
  end.

Section WithLibrary.
Context `{Library}.

(** [GenerateAuthHeader(privateKey, doc, serviceDomain)]; the nonce,
    the clock and the signing scalar are read from the world. *)
Definition GenerateAuthHeader (w : World) (privateKey : option ECDSA.PrivateKey)
    (doc : option DIDWBADocument) (serviceDomain : string) : error + AuthHeader :=
  match doc with
  | None => inl (ErrNew "DID document is required")
  | Some doc =>
      match selectVerificationMethod doc with
      | inl err => inl err
      | inr (methodMap, fragment) =>
          let methodType :=
            match map_get "type" methodMap with
            | Some (AnyString t) => t
            | _ => ""
            end in
          if negb (bool_decide (methodType = "EcdsaSecp256k1VerificationKey2019")) then
            inl (ErrNew ("unsupported verification method type for signing: " +:+ methodType))
          else
            let nonce := uuid_NewString w in
            let timestamp := RFC3339.Format (time_Now w) in
            let payload :=
              {| p_Nonce := nonce; p_Time := timestamp;
                 p_Service := serviceDomain; p_DID := ID doc |} in
            match signPayload privateKey (rand_nonce w) payload with
            | inl err => inl err
            | inr signature =>
                inr {| DID := ID doc; Nonce := nonce; Timestamp := timestamp;
                       VerificationMethod := fragment; Signature := signature |}
            end
      end
  end.

(** [validateHostname(hostname)] *)
Definition validateHostname (hostname : string) : option error :=
  if is_empty_string hostname then Some (ErrNew "hostname cannot be empty")
  else if net_ParseIP hostname then Some (ErrNew "hostname cannot be an IP address")
  else None.

(** [url.PathEscape(s)]: every byte is percent-encoded but letters,
    digits, and the bytes [-_.~$&+:=@]. *)
Definition path_unescaped (c : ascii) : bool :=
  let b := GoStrings.byte_of c in
  ((97 <=? b) && (b <=? 122)) || ((65 <=? b) && (b <=? 90))
  || ((48 <=? b) && (b <=? 57))
  || bool_decide (c ∈ ["-"; "_"; "."; "~"; "$"; "&"; "+"; ":"; "="; "@"]%char).

Definition upper_hex_digit (v : Z) : ascii :=
  if v <? 10 then GoStrings.ascii_of (48 + v) else GoStrings.ascii_of (55 + v).

Fixpoint PathEscape (s : string) : string :=
  match s with
  | EmptyString => EmptyString
  | String c s' =>
      if path_unescaped c then String c (PathEscape s')
      else
        let b := GoStrings.byte_of c in
        String "%"%char (String (upper_hex_digit (b / 16))
                           (String (upper_hex_digit (b mod 16)) (PathEscape s')))
  end.

(** [strings.Join(elems, ":")] *)
Fixpoint join_colon (elems : list string) : string :=
  match elems with
  | [] => ""
  | [e] => e
  | e :: rest => e +:+ ":" +:+ join_colon rest
  end.

(** [buildDID(hostname, port, pathSegments)] *)
Definition buildDID (hostname : string) (port : option Z) (pathSegments : list string) :
    error + string :=
  if is_empty_string hostname then inl (ErrNew "hostname cannot be empty")
  else
    let didBase :=
      "did:wba:" +:+ hostname +:+
      match port with
      | Some p => PathEscape (":" +:+ RFC3339.appendInt p 1)
      | None => ""
      end in
    let cleaned :=
      omap (λ segment,
              let trimmed := GoStrings.TrimSpace segment in
              if is_empty_string trimmed then None else Some (PathEscape trimmed))
           pathSegments in
    match cleaned with
    | [] => inr didBase
    | _ => inr (didBase +:+ ":" +:+ join_colon cleaned)
    end.

(** [CreateDIDWBADocument(hostname, port, pathSegments, agentDescriptionURL)];
    the key scalar is read from the world. *)
Definition CreateDIDWBADocument (w : World) (hostname : string) (port : option Z)
    (pathSegments : list string) (agentDescriptionURL : option string) :
    error + (DIDWBADocument * ECDSA.PrivateKey) :=
  match validateHostname hostname with
  | Some err => inl err
  | None =>
      match buildDID hostname port pathSegments with
      | inl err => inl err
      | inr did =>
          match ECDSA.GenerateKey (rand_key w) with
          | None => inl (ErrWrap "failed to generate key pair" (ErrNew "random source"))
          | Some privateKey =>
              let verificationMethodID := did +:+ "#key-1" in
              inr ({| Context :=
                        [ "https://www.w3.org/ns/did/v1";
                          "https://w3id.org/security/suites/jws-2020/v1";
                          "https://w3id.org/security/suites/secp256k1-2019/v1" ];
                      ID := did;
                      Doc.VerificationMethod :=
                        [ [ ("id", AnyString verificationMethodID);
                            ("type", AnyString "EcdsaSecp256k1VerificationKey2019");
                            ("controller", AnyString did);
                            ("publicKeyJwk",
                             AnyJWK (buildPublicKeyJWK (ECDSA.Public privateKey))) ] ];
                      Authentication := [verificationMethodID];
                      Services :=
                        match agentDescriptionURL with
                        | Some url =>
                            [ {| svc_ID := did +:+ "#ad"; svc_Type := "AgentDescription";
                                 ServiceEndpoint := url |} ]
                        | None => []
                        end |},
                   privateKey)
          end
      end
  end.

End WithLibrary.

(** A value after [sonic.Marshal] and [sonic.Unmarshal] into [any]: a
    struct comes back as a map of its members. *)
Definition json_any (v : any) : any :=
  match v with
  | AnyJWK j =>
      AnyMap [ ("kty", AnyString (Kty j)); ("crv", AnyString (Crv j));
               ("x", AnyString (jwk_X j)); ("y", AnyString (jwk_Y j));
               ("kid", AnyString (Kid j)) ]
  | _ => v
  end.

(** A document created in memory, after it was written as JSON and
    decoded again (as a resolver that fetches it sees it). *)
Definition json_document (doc : DIDWBADocument) : DIDWBADocument :=
  {| Context := Context doc;
     ID := ID doc;
     Doc.VerificationMethod :=
       map (map (λ kv : string * any, (kv.1, json_any kv.2)))
         (Doc.VerificationMethod doc);
     Authentication := Authentication doc;
     Services := Services doc |}.

End DidWba.

(** ** verifier.go: the server-side verifier *)

Module Verifier.
Import DidWba.

Definition DefaultJWTAlgorithm : string := "RS256".
Definition DefaultAccessTokenExpiration : Duration := 60 * Minute.
Definition DefaultTimestampExpiration : Duration := 5 * Minute.
Definition DefaultDIDCacheExpiration : Duration := 15 * Minute.
Definition DefaultNonceExpiration : Duration := 6 * Minute.
Definition DefaultTimestampTolerance : Duration := 1 * Minute.
Definition BearerScheme : string := "Bearer ".

Section WithLibrary.
Context `{Library}.

(** The interface [NonceValidator]: an object with some state [NV] and
    the method [Validate(ctx, did, nonce) (bool, error)], which may
    read the world and change the object. *)
Record NonceValidator (NV : Type) : Type := {
  nv_state : NV;
  nv_Validate : World → string → string → NV → (bool * option error) * NV
}.
Arguments nv_state {NV} _.
Arguments nv_Validate {NV} _ _ _ _ _.

(** [ResolveDIDDocumentFunc] *)
Definition ResolveDIDDocumentFunc : Type := World → string → error + DIDWBADocument.

Section WithValidator.
Context {NV : Type}.

(** [DidWbaVerifierConfig]. A [nil] key, validator, resolver or clock
    is [None]; [HTTPClient] only selects the client of the default
    resolver, whose answer is read from the world, and is left out. *)
Record DidWbaVerifierConfig : Type := {
  JWTPrivateKey : option JWTKey;
  JWTPublicKey : option JWTKey;
  JWTPrivateKeyPEM : string;
  JWTPublicKeyPEM : string;
  JWTAlgorithm : string;
  AccessTokenExpiration : Duration;
  TimestampExpiration : Duration;
  DIDCacheExpiration : Duration;
  AllowedDomains : list string;
  NonceValidator_ : option (NonceValidator NV);
  ResolveDIDDocument : option ResolveDIDDocumentFunc;
  Now : option (World → Time)
}.

Record didCacheEntry : Type := {
  doc : DIDWBADocument;
  expiresAt : Time
}.

(** [DidWbaVerifier]. [validator] is the state of the object
    [config.NonceValidator] points to. *)
Record DidWbaVerifier : Type := {
  config : DidWbaVerifierConfig;
  didCache : gmap string didCacheEntry;
  now : World → Time;
  validator : NV
}.

Definition with_algorithm (c : DidWbaVerifierConfig) (a : string) : DidWbaVerifierConfig :=
  {| JWTPrivateKey := JWTPrivateKey c; JWTPublicKey := JWTPublicKey c;
     JWTPrivateKeyPEM := JWTPrivateKeyPEM c; JWTPublicKeyPEM := JWTPublicKeyPEM c;
     JWTAlgorithm := a;
     AccessTokenExpiration := AccessTokenExpiration c;
     TimestampExpiration := TimestampExpiration c;
     DIDCacheExpiration := DIDCacheExpiration c;
     AllowedDomains := AllowedDomains c; NonceValidator_ := NonceValidator_ c;
     ResolveDIDDocument := ResolveDIDDocument c; Now := Now c |}.

Definition with_durations (c : DidWbaVerifierConfig) (a t d : Duration) :
    DidWbaVerifierConfig :=
  {| JWTPrivateKey := JWTPrivateKey c; JWTPublicKey := JWTPublicKey c;
     JWTPrivateKeyPEM := JWTPrivateKeyPEM c; JWTPublicKeyPEM := JWTPublicKeyPEM c;
     JWTAlgorithm := JWTAlgorithm c;
     AccessTokenExpiration := a; TimestampExpiration := t; DIDCacheExpiration := d;
     AllowedDomains := AllowedDomains c; NonceValidator_ := NonceValidator_ c;
     ResolveDIDDocument := ResolveDIDDocument c; Now := Now c |}.

Definition with_keys (c : DidWbaVerifierConfig) (priv pub : option JWTKey) :
    DidWbaVerifierConfig :=
  {| JWTPrivateKey := priv; JWTPublicKey := pub;
     JWTPrivateKeyPEM := JWTPrivateKeyPEM c; JWTPublicKeyPEM := JWTPublicKeyPEM c;
     JWTAlgorithm := JWTAlgorithm c;
     AccessTokenExpiration := AccessTokenExpiration c;
     TimestampExpiration := TimestampExpiration c;
     DIDCacheExpiration := DIDCacheExpiration c;
     AllowedDomains := AllowedDomains c; NonceValidator_ := NonceValidator_ c;
     ResolveDIDDocument := ResolveDIDDocument c; Now := Now c |}.

Definition with_now (c : DidWbaVerifierConfig) (f : World → Time) : DidWbaVerifierConfig :=
  {| JWTPrivateKey := JWTPrivateKey c; JWTPublicKey := JWTPublicKey c;
     JWTPrivateKeyPEM := JWTPrivateKeyPEM c; JWTPublicKeyPEM := JWTPublicKeyPEM c;
     JWTAlgorithm := JWTAlgorithm c;
     AccessTokenExpiration := AccessTokenExpiration c;
     TimestampExpiration := TimestampExpiration c;
     DIDCacheExpiration := DIDCacheExpiration c;
     AllowedDomains := AllowedDomains c; NonceValidator_ := NonceValidator_ c;
     ResolveDIDDocument := ResolveDIDDocument c; Now := Some f |}.

Definition or_default (d dflt : Duration) : Duration := if d =? 0 then dflt else d.

(** [NewDidWbaVerifier(config)] *)
Definition NewDidWbaVerifier (config : DidWbaVerifierConfig) : error + DidWbaVerifier :=
  match NonceValidator_ config with
  | None => inl (ErrIs ErrNonceValidatorMissing)
  | Some nv =>
      let config :=
        if DidWba.is_empty_string (JWTAlgorithm config)
        then with_algorithm config DefaultJWTAlgorithm else config in
      let config :=
        with_durations config
          (or_default (AccessTokenExpiration config) DefaultAccessTokenExpiration)
          (or_default (TimestampExpiration config) DefaultTimestampExpiration)
          (or_default (DIDCacheExpiration config) DefaultDIDCacheExpiration) in
      let private :=
        match JWTPrivateKey config with
        | None =>
            if DidWba.is_empty_string (JWTPrivateKeyPEM config) then inr None
            else match LoadJWTPrivateKeyFromPEM (JWTPrivateKeyPEM config) with
                 | inl err => inl (ErrWrap "loading JWT private key" err)
                 | inr key => inr (Some key)
                 end
        | Some key => inr (Some key)
        end in
      match private with
      | inl err => inl err
      | inr priv =>
          let public :=
            match JWTPublicKey config with
            | None =>
                if DidWba.is_empty_string (JWTPublicKeyPEM config) then inr None
                else match LoadJWTPublicKeyFromPEM (JWTPublicKeyPEM config) with
                     | inl err => inl (ErrWrap "loading JWT public key" err)
                     | inr key => inr (Some key)
                     end
            | Some key => inr (Some key)
            end in
          match public with
          | inl err => inl err
          | inr pub =>
              let config := with_keys config priv pub in
              let clock := default (time_Now : World → Time) (Now config) in
              let config := with_now config clock in
              inr {| config := config; didCache := ∅; now := clock;
                     validator := nv_state nv |}
          end
      end
  end.

(** [v.ensureDomainAllowed(domain)] *)
Definition ensureDomainAllowed (v : DidWbaVerifier) (domain : string) : option error :=
  match AllowedDomains (config v) with
  | [] => None
  | allowed =>
      if existsb (λ a, GoStrings.EqualFold fold_runes (GoStrings.TrimSpace a) domain) allowed
      then None
      else Some (NewErrorWithStatus (ErrWrapSentinel ErrDomainNotAllowed domain)
                   StatusForbidden)
  end.

(** [v.verifyTimestamp(timestampStr)] *)
Definition verifyTimestamp (w : World) (v : DidWbaVerifier) (timestampStr : string) :
    option error :=
  match time_Parse timestampStr with
  | None =>
      Some (NewErrorWithStatus
              (WrapAuthError ErrTimestampInvalid "parse timestamp"
                 (Some (ErrNew "parsing time")))
              StatusBadRequest)
  | Some requestTime =>
      let currentTime := now v w in
      if After requestTime (Add currentTime DefaultTimestampTolerance) then
        Some (NewErrorWithStatus (ErrIs ErrTimestampFuture) StatusBadRequest)
      else if TimestampExpiration (config v) <? Sub currentTime requestTime then
        Some (NewErrorWithStatus (ErrIs ErrTimestampExpired) StatusUnauthorized)
      else None
  end.

Definition set_validator (v : DidWbaVerifier) (s : NV) : DidWbaVerifier :=
  {| config := config v; didCache := didCache v; now := now v; validator := s |}.

Definition set_didCache (v : DidWbaVerifier) (c : gmap string didCacheEntry) :
    DidWbaVerifier :=
  {| config := config v; didCache := c; now := now v; validator := validator v |}.

(** [v.verifyNonce(ctx, did, nonce)]. A verifier built by
    [NewDidWbaVerifier] has a validator; calling the method of a [nil]
    interface panics, which is shown here as an error. *)
Definition verifyNonce (w : World) (v : DidWbaVerifier) (did nonce : string) :
    option error * DidWbaVerifier :=
  match NonceValidator_ (config v) with
  | None => (Some (ErrNew "panic: nil NonceValidator"), v)
  | Some nv =>
      let '((ok, err), s) := nv_Validate nv w did nonce (validator v) in
      let v' := set_validator v s in
      match err with
      | Some e =>
          (Some (NewErrorWithStatus
                   (WrapAuthError ErrNonceValidatorFailure "validate nonce" (Some e))
                   StatusInternalServerError), v')
      | None =>
          if negb ok then
            (Some (NewErrorWithStatus (ErrIs ErrNonceInvalid) StatusUnauthorized), v')
          else (None, v')
      end
  end.

Definition cache_hit (w : World) (v : DidWbaVerifier) (did : string) :
    option DIDWBADocument :=
  match didCache v !! did with
  | Some entry => if Before (now v w) (expiresAt entry) then Some (doc entry) else None
  | None => None
  end.

(** [v.resolveAndCacheDID(ctx, did)] *)
Definition resolveAndCacheDID (w : World) (v : DidWbaVerifier) (did : string) :
    (error + DIDWBADocument) * DidWbaVerifier :=
  match cache_hit w v did with
  | Some d => (inr d, v)
  | None =>
      let resolved :=
        match ResolveDIDDocument (config v) with
        | Some resolver => resolver w did
        | None => http_resolve w did
        end in
      match resolved with
      | inl err =>
          (inl (NewErrorWithStatus
                  (WrapAuthError ErrDIDResolution "resolve DID document" (Some err))
                  StatusUnauthorized), v)
      | inr d =>
          match cache_hit w v did with
          | Some d' => (inr d', v)
          | None =>
              (inr d,
               set_didCache v
                 (<[did := {| doc := d;
                              expiresAt := Add (now v w) (DIDCacheExpiration (config v)) |}]>
                    (didCache v)))
          end
      end
  end.

(** [v.verifySignature(authHeader, doc, serviceDomain)] *)
Definition verifySignature (authHeader : string) (doc : DIDWBADocument)
    (serviceDomain : string) : bool * string :=
  match parseAuthHeader authHeader with
  | inl err => (false, Error err)
  | inr parts =>
      if negb (bool_decide (DID parts = ID doc)) then (false, "DID mismatch")
      else
        match selectVerificationMethodForFragment doc (VerificationMethod parts) with
        | inl err => (false, "Verification method not found: " +:+ Error err)
        | inr (methodMap, _) =>
            match CreateVerificationMethod methodMap with
            | inl err => (false, "Failed to create verifier: " +:+ Error err)
            | inr verifier =>
                let payload :=
                  {| p_Nonce := Nonce parts; p_Time := Timestamp parts;
                     p_Service := serviceDomain; p_DID := DID parts |} in
                match marshal payload with
                | inl err => (false, "Failed to marshal payload: " +:+ Error err)
                | inr payloadBytes =>
                    if VerifySignature verifier payloadBytes (Signature parts)
                    then (true, "Verification successful")
                    else (false, "Signature verification failed")
                end
            end
        end
  end.

(** The [map[string]any] a successful verification returns; all its
    values are strings. *)
Definition bearer_result (did : string) : gmap string string := {[ "did" := did ]}.

Definition did_result (accessToken did : string) : gmap string string :=
  <["access_token" := accessToken]>
    (<["token_type" := "bearer"]> ({[ "did" := did ]})).

(** [v.handleBearerAuth(authorization)] *)
Definition handleBearerAuth (w : World) (v : DidWbaVerifier) (authorization : string) :
    error + gmap string string :=
  let tokenString := GoStrings.TrimPrefix authorization BearerScheme in
  match JWTPublicKey (config v) with
  | None => inl (NewErrorWithStatus (ErrIs ErrJWTConfigMissing) StatusInternalServerError)
  | Some key =>
      match jwt_verify w tokenString key (JWTAlgorithm (config v)) with
      | inl err =>
          inl (NewErrorWithStatus
                 (WrapAuthError ErrInvalidToken "verify access token" (Some err))
                 StatusUnauthorized)
      | inr did => inr (bearer_result did)
      end
  end.

(** [v.handleDidAuth(ctx, authorization, domain)] *)
Definition handleDidAuth (w : World) (v : DidWbaVerifier) (authorization domain : string) :
    (error + gmap string string) * DidWbaVerifier :=
  match ensureDomainAllowed v domain with
  | Some err => (inl err, v)
  | None =>
      match parseAuthHeader authorization with
      | inl err =>
          (inl (NewErrorWithStatus
                  (WrapAuthError ErrInvalidAuthHeader "parse auth header" (Some err))
                  StatusUnauthorized), v)
      | inr headerParts =>
          match verifyTimestamp w v (Timestamp headerParts) with
          | Some err => (inl err, v)
          | None =>
              match verifyNonce w v (DID headerParts) (Nonce headerParts) with
              | (Some err, v1) => (inl err, v1)
              | (None, v1) =>
                  match resolveAndCacheDID w v1 (DID headerParts) with
                  | (inl err, v2) => (inl err, v2)
                  | (inr didDocument, v2) =>
                      let '(isValid, message) :=
                        verifySignature authorization didDocument domain in
                      if negb isValid then
                        (inl (NewErrorWithStatus
                                (ErrWrapSentinel ErrInvalidSignature message)
                                StatusForbidden), v2)
                      else
                        match JWTPrivateKey (config v2) with
                        | None =>
                            (inl (NewErrorWithStatus (ErrIs ErrJWTConfigMissing)
                                    StatusInternalServerError), v2)
                        | Some key =>
                            match jwt_sign w (DID headerParts) key
                                    (JWTAlgorithm (config v2))
                                    (AccessTokenExpiration (config v2)) with
                            | inl err =>
                                (inl (NewErrorWithStatus
                                        (WrapAuthError ErrTokenCreation
                                           "create access token" (Some err))
                                        StatusInternalServerError), v2)
                            | inr accessToken =>
                                (inr (did_result accessToken (DID headerParts)), v2)
                            end
                        end
                  end
              end
          end
      end
  end.

(** [v.VerifyAuthHeaderContext(ctx, authorization, domain)] *)
Definition VerifyAuthHeaderContext (w : World) (v : DidWbaVerifier)
    (authorization domain : string) :
    (error + gmap string string) * DidWbaVerifier :=
  if DidWba.is_empty_string authorization then
    (inl (NewErrorWithStatus (ErrIs ErrMissingAuthHeader) StatusUnauthorized), v)
  else if GoStrings.HasPrefix authorization BearerScheme then
    (handleBearerAuth w v authorization, v)
  else handleDidAuth w v authorization domain.

(** middleware.go, [handleAuthError(w, err)]: the status code and the
    body [http.Error] is given. *)
Definition handleAuthError (err : error) : Z * string :=
  (GetStatusCode err StatusUnauthorized, Error err).

End WithValidator.

(** [*MemoryNonceValidator] as a [NonceValidator]: its [Validate]
    reads [time.Now().UTC()]. *)
Definition memory_validator (m : Nonce.MemoryNonceValidator) :
    NonceValidator Nonce.MemoryNonceValidator :=
  {| nv_state := m;
     nv_Validate := λ w did nonce s, Nonce.Validate (time_Now w) did nonce s |}.

End WithLibrary.

Arguments nv_state {_ _} _.
Arguments nv_Validate {_ _} _ _ _ _ _.

End Verifier.

(** ** authenticator.go, transport.go and the crawler's client.go

    The mutex and the single-flight group order concurrent callers;
    the model is of one caller, for whom the single-flight function
    simply runs. Calls to the logger are left out. *)

Module Client.
Import DidWba.

Definition AuthorizationHeader : string := "Authorization".
Definition BearerScheme : string := "Bearer ".

(** What a client did, in order: the requests it sent and the calls
    it made on the authenticator. The functions below return this
    record next to their result; it has no counterpart in the code. *)
Inductive Event : Type :=
(* GenerateHeader, or GenerateHeaderForce when [force]; [ok] when it
   returned a header *)
| Generated (target : string) (force ok : bool)
(* one HTTP exchange, with the status of the answer if there was one *)
| Sent (req : Request) (status : option Z)
(* ClearToken *)
| Cleared (target : string)
(* UpdateFromResponse, on a response with this status *)
| Updated (target : string) (status : Z).

Definition is_sent (e : Event) : bool :=
  match e with Sent _ _ => true | _ => false end.
Definition is_cleared (e : Event) : bool :=
  match e with Cleared _ => true | _ => false end.
Definition is_updated (e : Event) : bool :=
  match e with Updated _ _ => true | _ => false end.

(** The status an exchange ended with. *)
Definition status_of (answer : error + Response) : option Z :=
  match answer with
  | inl _ => None
  | inr resp => Some (StatusCode resp)
  end.

(** [http.Header.Get(key)] *)
Definition Header_Get (h : gmap string string) (key : string) : string :=
  default "" (h !! key).

Section WithLibrary.
Context `{Library}.

(** [Authenticator]: the paths of [cfg], the loaded material, the
    state of [loadOnce] with [loadErr], and the two caches. *)
Record Authenticator : Type := {
  DIDDocumentPath : string;
  PrivateKeyPath : string;
  didDocument : option DIDWBADocument;
  privateKey : option ECDSA.PrivateKey;
  loadOnce_done : bool;
  loadErr : option error;
  tokens : gmap string string;
  authHeaders : gmap string string
}.

Definition set_caches (a : Authenticator) (t h : gmap string string) : Authenticator :=
  {| DIDDocumentPath := DIDDocumentPath a; PrivateKeyPath := PrivateKeyPath a;
     didDocument := didDocument a; privateKey := privateKey a;
     loadOnce_done := loadOnce_done a; loadErr := loadErr a;
     tokens := t; authHeaders := h |}.

Definition set_material (a : Authenticator) (d : option DIDWBADocument)
    (k : option ECDSA.PrivateKey) (e : option error) : Authenticator :=
  {| DIDDocumentPath := DIDDocumentPath a; PrivateKeyPath := PrivateKeyPath a;
     didDocument := d; privateKey := k;
     loadOnce_done := true; loadErr := e;
     tokens := tokens a; authHeaders := authHeaders a |}.

(** [getDomain(target)] *)
Definition getDomain (target : string) : error + string :=
  match url_Parse_Host target with
  | inl err => inl (ErrWrap "parse url" err)
  | inr host => inr host
  end.

(** [a.ensureMaterial()] *)
Definition ensureMaterial (w : World) (a : Authenticator) : option error * Authenticator :=
  if loadOnce_done a then (loadErr a, a)
  else
    match didDocument a, privateKey a with
    | Some _, Some _ => (None, set_material a (didDocument a) (privateKey a) None)
    | _, _ =>
        match load_material w (DIDDocumentPath a) (PrivateKeyPath a) with
        | inl err => (Some err, set_material a (didDocument a) (privateKey a) (Some err))
        | inr (d, k) => (None, set_material a (Some d) (Some k) None)
        end
    end.

Definition cached (a : Authenticator) (domain : string) : option (gmap string string) :=
  match tokens a !! domain with
  | Some token => Some {[ AuthorizationHeader := BearerScheme +:+ token ]}
  | None =>
      match authHeaders a !! domain with
      | Some header => Some {[ AuthorizationHeader := header ]}
      | None => None
      end
  end.

(** [a.header(target, force)] *)
Definition header (w : World) (a : Authenticator) (target : string) (force : bool) :
    (error + gmap string string) * Authenticator :=
  match getDomain target with
  | inl err => (inl err, a)
  | inr domain =>
      match (if force then None else cached a domain) with
      | Some headers => (inr headers, a)
      | None =>
          (* the function run under [a.sf.Do(domain, ...)] *)
          match (if force then None else cached a domain) with
          | Some headers => (inr headers, a)
          | None =>
              match ensureMaterial w a with
              | (Some err, a1) => (inl (ErrWrap "load authentication material" err), a1)
              | (None, a1) =>
                  match GenerateAuthHeader w (privateKey a1) (didDocument a1) domain with
                  | inl err => (inl (ErrWrap "generate header" err), a1)
                  | inr h =>
                      let headerString := String_ h in
                      (inr {[ AuthorizationHeader := headerString ]},
                       set_caches a1 (tokens a1) (<[domain := headerString]> (authHeaders a1)))
                  end
              end
          end
      end
  end.

Definition GenerateHeader (w : World) (a : Authenticator) (target : string) :=
  header w a target false.

Definition GenerateHeaderForce (w : World) (a : Authenticator) (target : string) :=
  header w a target true.

(** [a.UpdateFromResponse(target, header)] *)
Definition UpdateFromResponse (a : Authenticator) (target : string)
    (h : gmap string string) : Authenticator :=
  let token := Header_Get h AuthorizationHeader in
  if negb (GoStrings.HasPrefix token BearerScheme) then a
  else
    match getDomain target with
    | inl _ => a
    | inr domain =>
        set_caches a (<[domain := GoStrings.TrimPrefix token BearerScheme]> (tokens a))
          (authHeaders a)
    end.

(** [a.ClearToken(target)] *)
Definition ClearToken (a : Authenticator) (target : string) : Authenticator :=
  match getDomain target with
  | inl _ => a
  | inr domain => set_caches a (delete domain (tokens a)) (delete domain (authHeaders a))
  end.

(** [for k, v := range headers { req.Header.Set(k, v) }] and
    [maps.Copy(reqHeaders, headers)]: the entries of [headers] win. *)
Definition with_headers (base headers : gmap string string) : gmap string string :=
  headers ∪ base.

(** [Transport]: [Base] answers through the world; a [nil]
    [Authenticator] is [None]. [t.RoundTrip(req)] returns the response
    or error, the authenticator after the call, and what was done. *)
Definition RoundTrip (w : World) (authenticator : option Authenticator) (req : Request) :
    (error + Response) * option Authenticator * list Event :=
  match authenticator with
  | None => (inl (ErrNew "authenticator is required"), None, [])
  | Some a =>
      match GenerateHeader w a (req_URL req) with
      | (inl err, a1) =>
          (inl (ErrWrap "generating auth header" err), Some a1,
           [Generated (req_URL req) false false])
      | (inr headers, a1) =>
          let clonedReq :=
            {| req_Method := req_Method req; req_URL := req_URL req;
               req_Header := with_headers (req_Header req) headers |} in
          match http_do w 0 clonedReq with
          | inl err =>
              (inl err, Some a1,
               [Generated (req_URL req) false true; Sent clonedReq None])
          | inr resp =>
              (inr resp, Some (UpdateFromResponse a1 (req_URL req) (resp_Header resp)),
               [Generated (req_URL req) false true;
                Sent clonedReq (Some (StatusCode resp));
                Updated (req_URL req) (StatusCode resp)])
          end
      end
  end.

(** The request body given to [Fetch], as far as it decides the
    headers: [nil], a byte slice, a reader, or a value [sonic.Marshal]
    encodes or fails to encode. *)
Inductive Body : Type :=
| BodyNil
| BodyBytes
| BodyReader
| BodyValue (marshalled : error + string).

(** [anp_crawler.Response] *)
Record FetchResponse : Type := {
  f_StatusCode : Z;
  f_URL : string;
  f_ContentType : string;
  f_Encoding : string;
  f_Header : gmap string string;
  f_Body : string
}.

Definition default_content_type (h : gmap string string) : gmap string string :=
  match h !! "Content-Type" with
  | Some _ => h
  | None => <["Content-Type" := "application/json"]> h
  end.

(** [validMethod] of net/http, which [http.NewRequestWithContext]
    applies: a non-empty string of token characters. *)
Definition is_token_byte (c : ascii) : bool :=
  let n := Z.of_N (N_of_ascii c) in
  ((48 <=? n) && (n <=? 57)) || ((65 <=? n) && (n <=? 90)) || ((97 <=? n) && (n <=? 122))
  || existsb (Z.eqb n) [33; 35; 36; 37; 38; 39; 42; 43; 45; 46; 94; 95; 96; 124; 126].

Definition validMethod (method : string) : bool :=
  negb (is_empty_string method) && forallb is_token_byte (list_ascii_of_string method).

(** The closure [performRequest] of [Fetch], at its [i]-th call. The
    target has been parsed by [GenerateHeader] before, so only the
    method can make [http.NewRequestWithContext] fail; the text of its
    error is shortened. *)
Definition performRequest (w : World) (i : nat) (method target : string)
    (reqHeaders : gmap string string) : (error + Response) * list Event :=
  if validMethod method then
    let req := {| req_Method := method; req_URL := target; req_Header := reqHeaders |} in
    let answer := http_do w i req in
    (answer, [Sent req (status_of answer)])
  else (inl (ErrWrap "create request" (ErrNew "net/http: invalid method")), []).

(** The branch of [Fetch] for a first response with status 401. *)
Definition retry (w : World) (a : Authenticator) (method target : string)
    (reqHeaders : gmap string string) :
    (error + Response) * Authenticator * list Event :=
  let a := ClearToken a target in
  match GenerateHeaderForce w a target with
  | (inl err, a) =>
      (inl (ErrWrap "refresh auth header" err), a,
       [Cleared target; Generated target true false])
  | (inr refreshedAuthHeader, a) =>
      let reqHeaders := with_headers reqHeaders refreshedAuthHeader in
      match performRequest w 1 method target reqHeaders with
      | (inl err, sent) =>
          (inl (ErrWrap "retry request" err), a,
           [Cleared target; Generated target true true] ++ sent)
      | (inr resp, sent) =>
          (inr resp, a, [Cleared target; Generated target true true] ++ sent)
      end
  end.

(** The end of [Fetch], from the test of the final status on. *)
Definition finish (a : Authenticator) (target : string) (resp : Response) :
    (error + FetchResponse) * Authenticator * list Event :=
  let '(a, updated) :=
    if (200 <=? StatusCode resp) && (StatusCode resp <? 300) then
      (UpdateFromResponse a target (resp_Header resp),
       [Updated target (StatusCode resp)])
    else (a, []) in
  match resp_Body resp with
  | inl err => (inl (ErrWrap "read response body" err), a, updated)
  | inr bodyBytes =>
      (inr {| f_StatusCode := StatusCode resp;
              f_URL := target;
              f_ContentType := Header_Get (resp_Header resp) "Content-Type";
              f_Encoding := Header_Get (resp_Header resp) "Content-Encoding";
              f_Header := resp_Header resp;
              f_Body := bodyBytes |},
       a, updated)
  end.

(** [c.Fetch(ctx, method, target, headers, body)] of the crawler's
    [httpClient]. The body reader is shared by both attempts and is
    not part of [Request]. *)
Definition Fetch (w : World) (a : Authenticator) (method target : string)
    (headers : gmap string string) (body : Body) :
    (error + FetchResponse) * Authenticator * list Event :=
  let method := if is_empty_string method then "GET" else method in
  let prepared : error + gmap string string :=
    match body with
    | BodyNil | BodyReader => inr headers
    | BodyBytes => inr (default_content_type headers)
    | BodyValue (inl err) => inl (ErrWrap "marshal request body" err)
    | BodyValue (inr _) => inr (default_content_type headers)
    end in
  match prepared with
  | inl err => (inl err, a, [])
  | inr reqHeaders =>
      match GenerateHeader w a target with
      | (inl err, a) =>
          (inl (ErrWrap "failed to get auth header" err), a,
           [Generated target false false])
      | (inr authHeader, a) =>
          let reqHeaders := with_headers reqHeaders authHeader in
          match performRequest w 0 method target reqHeaders with
          | (inl err, sent) =>
              (inl (ErrWrap "send request" err), a, Generated target false true :: sent)
          | (inr resp, sent) =>
              let first := Generated target false true :: sent in
              if StatusCode resp =? 401 then
                match retry w a method target reqHeaders with
                | (inl err, a, events) => (inl err, a, first ++ events)
                | (inr resp, a, events) =>
                    let '(r, a, updated) := finish a target resp in
                    (r, a, first ++ events ++ updated)
                end
              else
                let '(r, a, updated) := finish a target resp in
                (r, a, first ++ updated)
          end
      end
  end.

End WithLibrary.

(** *** The rule for a client, read on the record of a call

    After a first answer with status 401 come [ClearToken] and a
    forced generation for the same target and, if that gave a header,
    one more exchange and no further one; after any other first
    answer there is no further exchange. [UpdateFromResponse] is
    called on responses with a status from 200 to 299 only. *)

Definition no_exchange (events : list Event) : bool :=
  forallb (λ e, negb (is_sent e)) events.

Fixpoint from_first_exchange (events : list Event) : list Event :=
  match events with
  | [] => []
  | Sent req status :: rest => Sent req status :: rest
  | _ :: rest => from_first_exchange rest
  end.

Definition retries_once_on_401 (target : string) (events : list Event) : bool :=
  match from_first_exchange events with
  | Sent _ status :: rest =>
      if bool_decide (status = Some 401) then
        match rest with
        | Cleared t :: Generated t' true ok :: rest =>
            bool_decide (t = target) && bool_decide (t' = target)
            && (if ok then
                  match rest with
                  | Sent _ _ :: rest => no_exchange rest
                  | _ => false
                  end
                else no_exchange rest)
        | _ => false
        end
      else no_exchange rest
  | _ => true
  end.

Definition updates_only_on_2xx (events : list Event) : bool :=
  forallb (λ e, match e with
                | Updated _ status => (200 <=? status) && (status <? 300)
                | _ => true
                end) events.

End Client.

(** ** Concrete instances, for running the model *)

Module Examples.
Import DidWba Verifier.

(** The authority of an absolute URL with no user information: the
    bytes between the two slashes after the scheme and the next slash. *)
Fixpoint until_slash (s : string) : string :=
  match s with
  | EmptyString => EmptyString
  | String c s' => if decide (c = "/"%char) then EmptyString else String c (until_slash s')
  end.

Definition host_of (target : string) : string :=
  until_slash (GoStrings.TrimPrefix (GoStrings.TrimPrefix target "https://") "http://").

(** A library for ASCII inputs: keys are their PEM text, no host name
    is an IP address, and only the form of [RFC3339.parse_utc] parses. *)
#[export] Instance ascii_library : Library := {|
  JWTKey := string;
  LoadJWTPrivateKeyFromPEM := λ pem, inr pem;
  LoadJWTPublicKeyFromPEM := λ pem, inr pem;
  url_Parse_Host := λ target, inr (host_of target);
  net_ParseIP := λ _, false;
  fold_runes := λ _ _, false;
  time_Parse_other := λ _, None
|}.

Definition no_response : error + Response := inl (ErrNew "connection refused").

(** A world at 2025-10-30T22:00:00Z in which the network is down and
    the JWT library accepts the token [good] for [did:wba:example.com]. *)
Definition world_at (t : Time) : World := {|
  time_Now := t;
  uuid_NewString := "3f2b8c1e-6d4a-4f0b-9e7a-1c2d3e4f5a6b";
  rand_key := 0x1E99423A4ED27608A15A2616A2B0E9E52CED330AC530EDCC32C8FFC6A526AEDD;
  rand_nonce := 0x2B5AD5C4795C026514F8317C7A215E218DCCD6CF1A5F3F7C0A1B2C3D4E5F6071;
  jwt_verify := λ token _ _,
    if bool_decide (token = "good") then inr "did:wba:example.com"
    else inl (ErrNew "token is invalid");
  jwt_sign := λ did _ _ _, inr ("jwt-for-" +:+ did);
  http_resolve := λ _, inl (ErrNew "failed to get DID document");
  http_do := λ _ _, no_response;
  load_material := λ _ _, inl (ErrNew "read DID document")
|}.

Definition t0 : Time := 1761861600 * Second.
Definition world0 : World := world_at t0.

(** A verifier configuration with the in-memory validator. *)
Definition config0 (allowed : list string) :
    DidWbaVerifierConfig (NV := Nonce.MemoryNonceValidator) := {|
  JWTPrivateKey := Some "private-pem";
  JWTPublicKey := Some "public-pem";
  JWTPrivateKeyPEM := "";
  JWTPublicKeyPEM := "";
  JWTAlgorithm := "";
  AccessTokenExpiration := 0;
  TimestampExpiration := 0;
  DIDCacheExpiration := 0;
  AllowedDomains := allowed;
  NonceValidator_ :=
    Some (memory_validator (Nonce.NewMemoryNonceValidator DefaultNonceExpiration));
  ResolveDIDDocument := None;
  Now := None
|}.

(** The same with no validator. *)
Definition config_without_validator :
    DidWbaVerifierConfig (NV := Nonce.MemoryNonceValidator) := {|
  JWTPrivateKey := None; JWTPublicKey := None;
  JWTPrivateKeyPEM := ""; JWTPublicKeyPEM := "";
  JWTAlgorithm := "";
  AccessTokenExpiration := 0; TimestampExpiration := 0; DIDCacheExpiration := 0;
  AllowedDomains := [];
  NonceValidator_ := None;
  ResolveDIDDocument := None;
  Now := None
|}.

(** The verifier [NewDidWbaVerifier] builds from [config0]. *)
Definition verifier_of (c : DidWbaVerifierConfig (NV := Nonce.MemoryNonceValidator)) :
    option DidWbaVerifier :=
  match NewDidWbaVerifier c with
  | inr v => Some v
  | inl _ => None
  end.

Definition header_at (timestamp : string) : string :=
  String_ {| DID := "did:wba:example.com";
             Nonce := "3f2b8c1e-6d4a-4f0b-9e7a-1c2d3e4f5a6b";
             Timestamp := timestamp;
             VerificationMethod := "key-1";
             Signature := "c2ln" |}.

(** The verifier [NewDidWbaVerifier (config0 allowed)] returns. *)
Definition verifier0 (allowed : list string) :
    DidWbaVerifier (NV := Nonce.MemoryNonceValidator) := {|
  config :=
    with_now
      (with_keys
         (with_durations (with_algorithm (config0 allowed) DefaultJWTAlgorithm)
            DefaultAccessTokenExpiration DefaultTimestampExpiration
            DefaultDIDCacheExpiration)
         (Some "private-pem") (Some "public-pem"))
      time_Now;
  didCache := ∅;
  now := time_Now;
  validator := Nonce.NewMemoryNonceValidator DefaultNonceExpiration
|}.

(** A validator whose store cannot be reached. *)
Definition failing_validator : NonceValidator unit := {|
  nv_state := tt;
  nv_Validate := λ _ _ _ s, ((false, Some (ErrNew "dial tcp: connection refused")), s)
|}.

Definition verifier_failing : DidWbaVerifier (NV := unit) := {|
  config := {|
    JWTPrivateKey := Some "private-pem"; JWTPublicKey := Some "public-pem";
    JWTPrivateKeyPEM := ""; JWTPublicKeyPEM := "";
    JWTAlgorithm := DefaultJWTAlgorithm;
    AccessTokenExpiration := DefaultAccessTokenExpiration;
    TimestampExpiration := DefaultTimestampExpiration;
    DIDCacheExpiration := DefaultDIDCacheExpiration;
    AllowedDomains := [];
    NonceValidator_ := Some failing_validator;
    ResolveDIDDocument := None;
    Now := Some time_Now |};
  didCache := ∅;
  now := time_Now;
  validator := tt
|}.

(** [verifier0] after it has accepted the nonce of [header_at]. *)
Definition verifier_seen : DidWbaVerifier (NV := Nonce.MemoryNonceValidator) :=
  set_validator (verifier0 [])
    (Nonce.Validate t0 "did:wba:example.com" "3f2b8c1e-6d4a-4f0b-9e7a-1c2d3e4f5a6b"
       (validator (verifier0 []))).2.

(** What [CreateDIDWBADocument("example.com", nil, nil, nil)] returns
    in [world0]. *)
Definition created0 : error + (DIDWBADocument * ECDSA.PrivateKey) :=
  CreateDIDWBADocument world0 "example.com" None [] None.



(** An authenticator built with [WithDIDMaterial(doc, key)], with the
    bearer tokens it holds. *)
Definition authenticator_with (doc : DIDWBADocument) (key : ECDSA.PrivateKey)
    (cached_tokens : gmap string string) : Client.Authenticator := {|
  Client.DIDDocumentPath := "";
  Client.PrivateKeyPath := "";
  Client.didDocument := Some doc;
  Client.privateKey := Some key;
  Client.loadOnce_done := false;
  Client.loadErr := None;
  Client.tokens := cached_tokens;
  Client.authHeaders := ∅
|}.

Definition authenticator_of (material : error + (DIDWBADocument * ECDSA.PrivateKey)) :
    option Client.Authenticator :=
  match material with
  | inr (doc, key) => Some (authenticator_with doc key {[ "example.com" := "stale" ]})
  | inl _ => None
  end.

Definition authenticator0 : option Client.Authenticator := authenticator_of created0.

(** A response with the given status that carries a bearer token. *)
Definition response_with (status : Z) (token : string) : Response := {|
  StatusCode := status;
  resp_Header := {[ "Authorization" := "Bearer " +:+ token ]};
  resp_Body := inr "{}"
|}.

(** [world0] with a server that answers the [i]-th exchange of a call
    with [answers i]. *)
Definition world_answering (answers : nat → Response) : World := {|
  time_Now := time_Now world0;
  uuid_NewString := uuid_NewString world0;
  rand_key := rand_key world0;
  rand_nonce := rand_nonce world0;
  jwt_verify := jwt_verify world0;
  jwt_sign := jwt_sign world0;
  http_resolve := http_resolve world0;
  http_do := λ i _, inr (answers i);
  load_material := load_material world0
|}.

(** A server that rejects every request with status 401 and sends a
    bearer token along. *)
Definition world_401 : World := world_answering (λ _, response_with 401 "from-401").


Definition url0 : string := "https://example.com/agents".

Definition request0 : Request := {|
  req_Method := "GET";
  req_URL := url0;
  req_Header := ∅
|}.


(** The payload [GenerateAuthHeader] signs in [world0] for the service
    [example.com] and the DID [did:wba:example.com]. *)
Definition payload0 : authPayload := {|
  p_Nonce := "3f2b8c1e-6d4a-4f0b-9e7a-1c2d3e4f5a6b";
  p_Time := "2025-10-30T22:00:00Z";
  p_Service := "example.com";
  p_DID := "did:wba:example.com"
|}.

(** The key pair [ecdsa.GenerateKey] returns in [world0]. *)
Definition key0 : option ECDSA.PrivateKey := ECDSA.GenerateKey (rand_key world0).

End Examples.

(** ** did_wba.go: from a DID to the URL of its document *)

Module Resolve.
Import DidWba.

(** [strings.SplitN(s, ":", n)] for [n >= 0]: at most [n] pieces, the
    last one the unsplit rest. *)
Fixpoint until_colon (s : string) : string * option string :=
  match s with
  | EmptyString => (EmptyString, None)
  | String c s' =>
      if decide (c = ":"%char) then (EmptyString, Some s')
      else let '(piece, rest) := until_colon s' in (String c piece, rest)
  end.

Fixpoint SplitN_colon (s : string) (n : nat) : list string :=
  match n with
  | O => []
  | S O => [s]
  | S n' =>
      match until_colon s with
      | (piece, Some rest) => piece :: SplitN_colon rest n'
      | (piece, None) => [piece]
      end
  end.

(** [ishex] and [unhex] of net/url *)
Definition ishex (c : ascii) : bool :=
  let b := GoStrings.byte_of c in
  ((48 <=? b) && (b <=? 57)) || ((97 <=? b) && (b <=? 102)) || ((65 <=? b) && (b <=? 70)).

Definition unhex (c : ascii) : Z :=
  let b := GoStrings.byte_of c in
  if (48 <=? b) && (b <=? 57) then b - 48
  else if (97 <=? b) && (b <=? 102) then b - 97 + 10
  else if (65 <=? b) && (b <=? 70) then b - 65 + 10
  else 0.

(** [url.PathUnescape(s)]: every percent sign must be followed by two
    hexadecimal digits, which give the byte; any other byte, the plus
    sign included, is kept. The text of the error is shortened. *)
Fixpoint PathUnescape (s : string) : error + string :=
  match s with
  | EmptyString => inr EmptyString
  | String c s' =>
      if decide (c = "%"%char) then
        match s' with
        | String h (String l rest) =>
            if ishex h && ishex l then
              match PathUnescape rest with
              | inl err => inl err
              | inr t => inr (String (GoStrings.ascii_of (unhex h * 16 + unhex l)) t)
              end
            else inl (ErrNew "invalid URL escape")
        | _ => inl (ErrNew "invalid URL escape")
        end
      else
        match PathUnescape s' with
        | inl err => inl err
        | inr t => inr (String c t)
        end
  end.

(** [strings.ReplaceAll(s, ":", "/")] *)
Fixpoint colons_to_slashes (s : string) : string :=
  match s with
  | EmptyString => EmptyString
  | String c s' =>
      String (if decide (c = ":"%char) then "/"%char else c) (colons_to_slashes s')
  end.

(** [didToURL(did)] *)
Definition didToURL (did : string) : error + string :=
  if negb (GoStrings.HasPrefix did "did:wba:") then
    inl (ErrNew "invalid DID format: must start with 'did:wba:'")
  else
    match SplitN_colon did 4 with
    | _ :: _ :: domain :: rest =>
        match PathUnescape domain with
        | inl err => inl (ErrWrap "failed to unescape domain" err)
        | inr domain =>
            let path :=
              match rest with
              | tail :: _ => "/" +:+ colons_to_slashes tail +:+ "/did.json"
              | [] => "/.well-known/did.json"
              end in
            inr ("https://" +:+ domain +:+ path)
        end
    | _ => inl (ErrNew "invalid DID format: missing domain")
    end.

(** [ResolveDIDWBADocument(did, httpClient)]. [Get] is the client's
    [Get], and [decode] stands for [sonic.Unmarshal] into a
    [DIDWBADocument]; the status in the text of the second error is
    left out. *)
Definition ResolveDIDWBADocument (Get : string → error + Response)
    (decode : string → error + DIDWBADocument) (did : string) : error + DIDWBADocument :=
  match didToURL did with
  | inl err => inl err
  | inr url =>
      match Get url with
      | inl err => inl (ErrWrap "failed to get DID document" err)
      | inr resp =>
          if negb (StatusCode resp =? 200) then
            inl (ErrNew "failed to get DID document: status code")
          else
            match resp_Body resp with
            | inl err => inl (ErrWrap "failed to read response body" err)
            | inr bodyBytes =>
                match decode bodyBytes with
                | inl err => inl (ErrWrap "failed to decode DID document" err)
                | inr doc =>
                    if negb (bool_decide (ID doc = did)) then
                      inl (ErrNew "DID document ID mismatch")
                    else inr doc
                end
            end
      end
  end.

End Resolve.


(** ** middleware.go *)

Module Middleware.
Import DidWba Verifier.

Definition ContextKeyDID : string := "authenticated_did".
Definition ContextKeyAccessToken : string := "access_token".

(** A request as the handlers see it: the headers, [r.Host],
    [r.URL.Host], and the values of its context under the keys of type
    [contextKey]. *)
Record HandlerRequest : Type := {
  hr_Header : gmap string string;
  hr_Host : string;
  hr_URL_Host : string;
  hr_Context : gmap string any
}.

Definition WithContext (r : HandlerRequest) (ctx : gmap string any) : HandlerRequest :=
  {| hr_Header := hr_Header r; hr_Host := hr_Host r; hr_URL_Host := hr_URL_Host r;
     hr_Context := ctx |}.

(** What a chain of handlers does with a request: it answers through
    [http.Error(w, body, code)], or it reaches the application's
    handler with a request and the headers set on the response so far. *)
Inductive Reply : Type :=
| HttpError (body : string) (code : Z)
| Served (r : HandlerRequest) (responseHeader : gmap string string).

(** An [http.Handler]: from the response headers set so far and the
    request to the reply. *)
Definition Handler : Type := gmap string string → HandlerRequest → Reply.

(** The application's handler, at the end of a chain. *)
Definition application : Handler := λ responseHeader r, Served r responseHeader.

(** [DIDFromContext(ctx)] *)
Definition DIDFromContext (ctx : gmap string any) : string * bool :=
  match ctx !! ContextKeyDID with
  | Some (AnyString did) => (did, true)
  | _ => ("", false)
  end.

(** [AccessTokenFromContext(ctx)] *)
Definition AccessTokenFromContext (ctx : gmap string any) : string * bool :=
  match ctx !! ContextKeyAccessToken with
  | Some (AnyString token) => (token, true)
  | _ => ("", false)
  end.

(** [RequireDID(next)] *)
Definition RequireDID (next : Handler) : Handler := λ responseHeader r,
  if negb (DIDFromContext (hr_Context r)).2 then
    HttpError "authentication required" StatusUnauthorized
  else next responseHeader r.

(** [RequireSpecificDID(allowedDIDs...)(next)]: the keys of the map
    [allowed] are the trimmed entries. *)
Definition RequireSpecificDID (allowedDIDs : list string) (next : Handler) : Handler :=
  let allowed := GoStrings.TrimSpace <$> allowedDIDs in
  λ responseHeader r,
    let '(did, ok) := DIDFromContext (hr_Context r) in
    if negb ok then HttpError "authentication required" StatusUnauthorized
    else if negb (bool_decide (did ∈ allowed)) then HttpError "access denied" StatusForbidden
    else next responseHeader r.

Section WithLibrary.
Context `{Library} {NV : Type}.

(** [Middleware(verifier)(next)], with the verifier after the request. *)
Definition Middleware (w : World) (verifier : DidWbaVerifier (NV := NV)) (next : Handler)
    (responseHeader : gmap string string) (r : HandlerRequest) :
    Reply * DidWbaVerifier (NV := NV) :=
  let authHeader := Client.Header_Get (hr_Header r) Client.AuthorizationHeader in
  if is_empty_string authHeader then
    (HttpError "missing authorization header" StatusUnauthorized, verifier)
  else
    let domain := if is_empty_string (hr_Host r) then hr_URL_Host r else hr_Host r in
    match VerifyAuthHeaderContext w verifier authHeader domain with
    | (inl err, verifier) =>
        let '(statusCode, body) := handleAuthError err in
        (HttpError body statusCode, verifier)
    | (inr result, verifier) =>
        let ctx := hr_Context r in
        let ctx :=
          match result !! "did" with
          | Some did => <[ContextKeyDID := AnyString did]> ctx
          | None => ctx
          end in
        let '(ctx, responseHeader) :=
          match result !! "access_token" with
          | Some token =>
              (<[ContextKeyAccessToken := AnyString token]> ctx,
               <[Client.AuthorizationHeader := BearerScheme +:+ token]> responseHeader)
          | None => (ctx, responseHeader)
          end in
        (next responseHeader (WithContext r ctx), verifier)
    end.

End WithLibrary.

End Middleware.

(** ** options.go: building an authenticator *)

Module Options.
Import Client.

(** The options; a [nil] document, key or logger is [None]. *)
Inductive AuthenticatorOption : Type :=
| WithDIDMaterial (doc : option DIDWBADocument) (privateKey : option ECDSA.PrivateKey)
| WithDIDCfgPaths (didDocPath privateKeyPath : string)
| WithEagerLoading
| WithCacheSize (size : Z)
| WithLogger (logger : option unit).

Section WithLibrary.
Context `{Library}.

(** The authenticator [NewAuthenticator] starts from. *)
Definition blank : Authenticator := {|
  DIDDocumentPath := ""; PrivateKeyPath := "";
  didDocument := None; privateKey := None;
  loadOnce_done := false; loadErr := None;
  tokens := ∅; authHeaders := ∅
|}.

Definition set_paths (a : Authenticator) (d k : string) : Authenticator :=
  {| DIDDocumentPath := d; PrivateKeyPath := k;
     didDocument := didDocument a; privateKey := privateKey a;
     loadOnce_done := loadOnce_done a; loadErr := loadErr a;
     tokens := tokens a; authHeaders := authHeaders a |}.

Definition set_loaded (a : Authenticator) (d : option DIDWBADocument)
    (k : option ECDSA.PrivateKey) : Authenticator :=
  {| DIDDocumentPath := DIDDocumentPath a; PrivateKeyPath := PrivateKeyPath a;
     didDocument := d; privateKey := k;
     loadOnce_done := loadOnce_done a; loadErr := loadErr a;
     tokens := tokens a; authHeaders := authHeaders a |}.

(** One option applied to the authenticator under construction. The
    logger is not part of the model. *)
Definition apply_option (w : World) (a : Authenticator) (opt : AuthenticatorOption) :
    error + Authenticator :=
  match opt with
  | WithDIDMaterial doc privateKey =>
      match doc, privateKey with
      | None, _ => inl (ErrNew "DID document cannot be nil")
      | Some _, None => inl (ErrNew "private key cannot be nil")
      | Some _, Some _ => inr (set_loaded a doc privateKey)
      end
  | WithDIDCfgPaths didDocPath privateKeyPath =>
      if DidWba.is_empty_string didDocPath then
        inl (ErrNew "DID document path cannot be empty")
      else if DidWba.is_empty_string privateKeyPath then
        inl (ErrNew "private key path cannot be empty")
      else inr (set_paths a didDocPath privateKeyPath)
  | WithEagerLoading =>
      if DidWba.is_empty_string (DIDDocumentPath a)
         || DidWba.is_empty_string (PrivateKeyPath a) then
        inl (ErrNew "DID paths must be set before eager loading")
      else
        match load_material w (DIDDocumentPath a) (PrivateKeyPath a) with
        | inl err => inl err
        | inr (doc, key) => inr (set_loaded a (Some doc) (Some key))
        end
  | WithCacheSize size =>
      if size <? 0 then inl (ErrNew "cache size must be non-negative")
      else inr (set_caches a ∅ ∅)
  | WithLogger logger =>
      match logger with
      | None => inl (ErrNew "logger cannot be nil")
      | Some _ => inr a
      end
  end.

(** The loop over the options: the first error ends it. *)
Fixpoint apply_options (w : World) (a : Authenticator) (opts : list AuthenticatorOption) :
    error + Authenticator :=
  match opts with
  | [] => inr a
  | opt :: rest =>
      match apply_option w a opt with
      | inl err => inl err
      | inr a' => apply_options w a' rest
      end
  end.

(** [NewAuthenticator(opts...)] *)
Definition NewAuthenticator (w : World) (opts : list AuthenticatorOption) :
    error + Authenticator :=
  match apply_options w blank opts with
  | inl err => inl err
  | inr a =>
      let hasDirectMaterial :=
        bool_decide (is_Some (didDocument a)) && bool_decide (is_Some (privateKey a)) in
      let hasPaths :=
        negb (DidWba.is_empty_string (DIDDocumentPath a))
        && negb (DidWba.is_empty_string (PrivateKeyPath a)) in
      if negb hasDirectMaterial && negb hasPaths then
        inl (ErrNew "must provide either DID material (WithDIDMaterial) or paths (WithDIDCfgPaths)")
      else inr a
  end.

End WithLibrary.

End Options.


(** ** did_wba.go: the JSON form of the authentication payload *)

Module AuthJSONFlow.
Import DidWba.

(** [AuthJSON] *)
Record AuthJSON : Type := {
  j_DID : string;
  j_Nonce : string;
  j_Timestamp : string;
  j_VerificationMethod : string;
  j_Signature : string
}.

(** [VerifyAuthJSON(authJSON, doc, serviceDomain)] *)
Definition VerifyAuthJSON (authJSON : option AuthJSON) (doc : option DIDWBADocument)
    (serviceDomain : string) : bool * string :=
  match authJSON, doc with
  | None, _ => (false, "auth JSON payload is nil")
  | Some _, None => (false, "DID document is required")
  | Some authJSON, Some doc =>
      if negb (bool_decide (j_DID authJSON = ID doc)) then (false, "DID mismatch")
      else
        match selectVerificationMethodForFragment doc (j_VerificationMethod authJSON) with
        | inl err => (false, "Verification method not found: " +:+ Error err)
        | inr (methodMap, _) =>
            match CreateVerificationMethod methodMap with
            | inl err => (false, "Failed to create verifier: " +:+ Error err)
            | inr verifier =>
                let payload :=
                  {| p_Nonce := j_Nonce authJSON; p_Time := j_Timestamp authJSON;
                     p_Service := serviceDomain; p_DID := j_DID authJSON |} in
                match marshal payload with
                | inl err => (false, "Failed to marshal payload: " +:+ Error err)
                | inr payloadBytes =>
                    if VerifySignature verifier payloadBytes (j_Signature authJSON)
                    then (true, "Verification successful")
                    else (false, "Signature verification failed")
                end
            end
        end
  end.

(** [ParseAuthJSON(data)]; [decode] stands for [sonic.Unmarshal] into
    an [AuthJSON]. *)
Definition ParseAuthJSON (decode : string → error + AuthJSON) (data : string) :
    error + AuthJSON :=
  if is_empty_string data then inl (ErrNew "auth JSON payload is empty")
  else
    match decode data with
    | inl err => inl (ErrWrap "failed to decode auth JSON" err)
    | inr authJSON =>
        if is_empty_string (j_DID authJSON) || is_empty_string (j_Nonce authJSON)
           || is_empty_string (j_Timestamp authJSON)
           || is_empty_string (j_VerificationMethod authJSON)
           || is_empty_string (j_Signature authJSON)
        then inl (ErrNew "auth JSON missing required fields")
        else inr authJSON
    end.

(** [VerifyAuthJSONBytes(data, doc, serviceDomain)] *)
Definition VerifyAuthJSONBytes (decode : string → error + AuthJSON) (data : string)
    (doc : option DIDWBADocument) (serviceDomain : string) :
    (bool * string) * option error :=
  match ParseAuthJSON decode data with
  | inl err => ((false, ""), Some err)
  | inr authJSON => (VerifyAuthJSON (Some authJSON) doc serviceDomain, None)
  end.

Section WithLibrary.
Context `{Library}.

(** [GenerateAuthJSON(privateKey, doc, serviceDomain)] *)
Definition GenerateAuthJSON (w : World) (privateKey : option ECDSA.PrivateKey)
    (doc : option DIDWBADocument) (serviceDomain : string) : error + AuthJSON :=
  match doc, privateKey with
  | None, _ => inl (ErrNew "DID document is required")
  | Some _, None => inl (ErrNew "private key is required")
  | Some doc, Some _ =>
      match selectVerificationMethod doc with
      | inl err => inl err
      | inr (methodMap, fragment) =>
          let methodType :=
            match map_get "type" methodMap with
            | Some (AnyString t) => t
            | _ => ""
            end in
          if negb (bool_decide (methodType = "EcdsaSecp256k1VerificationKey2019")) then
            inl (ErrNew ("unsupported verification method type for signing: " +:+ methodType))
          else
            let nonce := uuid_NewString w in
            let timestamp := RFC3339.Format (time_Now w) in
            let payload :=
              {| p_Nonce := nonce; p_Time := timestamp;
                 p_Service := serviceDomain; p_DID := ID doc |} in
            match signPayload privateKey (rand_nonce w) payload with
            | inl err => inl err
            | inr signature =>
                inr {| j_DID := ID doc; j_Nonce := nonce; j_Timestamp := timestamp;
                       j_VerificationMethod := fragment; j_Signature := signature |}
            end
      end
  end.

End WithLibrary.

End AuthJSONFlow.


(** ** More concrete instances *)

Module MoreExamples.
Import DidWba Verifier Examples.

(** The document of created material as a resolver decodes it. *)
Definition published_of (material : error + (DIDWBADocument * ECDSA.PrivateKey)) :
    DIDWBADocument :=
  match material with
  | inr (doc, _) => json_document doc
  | inl _ => {| Context := []; ID := ""; Doc.VerificationMethod := [];
                Authentication := []; Services := [] |}
  end.

Definition doc_published : DIDWBADocument := Eval vm_compute in published_of created0.

(** A signature over the SHA-256 digest of the canonical payload,
    hashed once, as [VerifySignature] checks it. *)
Definition sign_once (key : option ECDSA.PrivateKey) (k : Z) (payload : authPayload) :
    string :=
  match key, marshal payload with
  | Some key, inr data =>
      match ECDSA.Sign key k (SHA256.Sum256 data) with
      | Some (r, s) => match marshalSignature r s with inr sig => sig | inl _ => "" end
      | None => ""
      end
  | _, _ => ""
  end.

Definition signature_once : string :=
  Eval vm_compute in sign_once key0 (rand_nonce world0) payload0.

(** A header for [example.com] that carries that signature. *)
Definition accepted_header : string :=
  String_ {| DID := p_DID payload0; Nonce := p_Nonce payload0;
             Timestamp := p_Time payload0;
             VerificationMethod := "key-1"; Signature := signature_once |}.

(** [world0] one minute later. *)
Definition world_later : World := world_at (t0 + Minute).

(** A request with the given [Authorization] header for [example.com]. *)
Definition request_with (authorization : string) : Middleware.HandlerRequest := {|
  Middleware.hr_Header := {[ "Authorization" := authorization ]};
  Middleware.hr_Host := "example.com";
  Middleware.hr_URL_Host := "";
  Middleware.hr_Context := ∅
|}.

(** The document and the key of created material. *)
Definition doc_of (material : error + (DIDWBADocument * ECDSA.PrivateKey)) :
    DIDWBADocument :=
  match material with
  | inr m => m.1
  | inl _ => {| Context := []; ID := ""; Doc.VerificationMethod := [];
                Authentication := []; Services := [] |}
  end.

Definition key_of (material : error + (DIDWBADocument * ECDSA.PrivateKey)) :
    ECDSA.PrivateKey :=
  match material with
  | inr m => m.2
  | inl _ => {| ECDSA.Public := {| ECDSA.X := 0; ECDSA.Y := 0 |}; ECDSA.D := 0 |}
  end.

Definition doc_created : DIDWBADocument := Eval vm_compute in doc_of created0.

Definition key_created : ECDSA.PrivateKey := Eval vm_compute in key_of created0.

(** The key pair with scalar one, whose public key is the generator. *)
Definition key_one : ECDSA.PrivateKey :=
  {| ECDSA.Public := {| ECDSA.X := Secp256k1.Gx; ECDSA.Y := Secp256k1.Gy |};
     ECDSA.D := 1 |}.

Definition authenticator_one (cached_tokens : gmap string string) : Client.Authenticator :=
  authenticator_with doc_published key_one cached_tokens.

(** An authenticator that has paths and no material; in [world0] the
    files cannot be read. *)
Definition authenticator_paths : Client.Authenticator := {|
  Client.DIDDocumentPath := "did.json"; Client.PrivateKeyPath := "key.pem";
  Client.didDocument := None; Client.privateKey := None;
  Client.loadOnce_done := false; Client.loadErr := None;
  Client.tokens := ∅; Client.authHeaders := ∅
|}.

(** [verifier0] with the published document in its cache. *)
Definition verifier_cached : DidWbaVerifier (NV := Nonce.MemoryNonceValidator) :=
  set_didCache (verifier0 [])
    {[ "did:wba:example.com" :=
         {| doc := doc_published; expiresAt := t0 + DefaultDIDCacheExpiration |} ]}.

(** [verifier0] with a [TimestampExpiration] of minus two minutes. *)
Definition verifier_negative : DidWbaVerifier (NV := Nonce.MemoryNonceValidator) :=
  {| config := with_durations (config (verifier0 [])) DefaultAccessTokenExpiration
                 (- (2 * Minute)) DefaultDIDCacheExpiration;
     didCache := ∅; now := time_Now;
     validator := Nonce.NewMemoryNonceValidator DefaultNonceExpiration |}.

(** A client whose every request is answered with status 200 and the
    given body. *)
Definition answer_200 (body : string) : string → error + Response :=
  λ _, inr {| StatusCode := 200; resp_Header := ∅; resp_Body := inr body |}.

End MoreExamples.


(** * Properties *)

(** ** The in-memory nonce validator *)

Module NonceFacts.
Import Nonce.















End NonceFacts.

(** ** The verifier *)

Module VerifierFacts.
Import DidWba Verifier.

Section Facts.
Context `{Library} {NV : Type}.
Implicit Types (v : DidWbaVerifier (NV := NV)) (w : World).

(** C5. A configuration without a nonce validator is refused: the
    constructor returns [ErrNonceValidatorMissing] and no verifier. *)
Theorem new_verifier_requires_nonce_validator
    (config : DidWbaVerifierConfig (NV := NV)) :
  NonceValidator_ config = None →
  NewDidWbaVerifier config = inl (ErrIs ErrNonceValidatorMissing).
Proof. intros Hnil. unfold NewDidWbaVerifier. by rewrite Hnil. Qed.

(** The converse: with a validator and keys given directly or not at
    all, a verifier is built. *)
Lemma new_verifier_with_validator (config : DidWbaVerifierConfig (NV := NV)) nv :
  NonceValidator_ config = Some nv →
  JWTPrivateKeyPEM config = "" → JWTPublicKeyPEM config = "" →
  ∃ v, NewDidWbaVerifier config = inr v ∧ validator v = nv_state nv
       ∧ NonceValidator_ (Verifier.config v) = Some nv.
Proof.
  intros Hnv Hpriv Hpub. unfold NewDidWbaVerifier. rewrite Hnv.
  destruct (is_empty_string (JWTAlgorithm config)); simpl; rewrite Hpriv, Hpub; simpl;
    destruct (JWTPrivateKey config), (JWTPublicKey config); simpl; eauto.
Qed.

(** *** The timestamp window *)


Lemma Sub_le_max (t u : Time) : Sub t u <= maxDuration.
Proof.
  unfold Sub. destruct (Z.ltb_spec (t - u) minDuration); [done |].
  destruct (Z.ltb_spec maxDuration (t - u)); lia.
Qed.


(** What [verifyTimestamp] answers, case by case. *)
Lemma verifyTimestamp_cases w v ts t :
  time_Parse ts = Some t →
  verifyTimestamp w v ts =
    if After t (Add (now v w) DefaultTimestampTolerance) then
      Some (ErrorWithStatus (ErrIs ErrTimestampFuture) 400)
    else if TimestampExpiration (config v) <? Sub (now v w) t then
      Some (ErrorWithStatus (ErrIs ErrTimestampExpired) 401)
    else None.
Proof. intros Hp. unfold verifyTimestamp. by rewrite Hp. Qed.

Lemma verifyTimestamp_future w v ts t :
  time_Parse ts = Some t → now v w + DefaultTimestampTolerance < t →
  verifyTimestamp w v ts = Some (ErrorWithStatus (ErrIs ErrTimestampFuture) 400).
Proof.
  intros Hp Hf. rewrite (verifyTimestamp_cases _ _ _ _ Hp). unfold After, Add.
  by destruct (Z.ltb_spec (now v w + DefaultTimestampTolerance) t); [| lia].
Qed.

Lemma verifyTimestamp_expired w v ts t :
  time_Parse ts = Some t → t <= now v w + DefaultTimestampTolerance →
  TimestampExpiration (config v) < Sub (now v w) t →
  verifyTimestamp w v ts = Some (ErrorWithStatus (ErrIs ErrTimestampExpired) 401).
Proof.
  intros Hp Hf He. rewrite (verifyTimestamp_cases _ _ _ _ Hp). unfold After, Add.
  destruct (Z.ltb_spec (now v w + DefaultTimestampTolerance) t); [lia |].
  by destruct (Z.ltb_spec (TimestampExpiration (config v)) (Sub (now v w) t)); [| lia].
Qed.




(** *** Failures on the DID-WBA path *)

Lemma handleDidAuth_timestamp_error w v authorization domain parts e :
  ensureDomainAllowed v domain = None →
  parseAuthHeader authorization = inr parts →
  verifyTimestamp w v (Timestamp parts) = Some e →
  handleDidAuth w v authorization domain = (inl e, v).
Proof. intros Hd Hp Ht. unfold handleDidAuth. by rewrite Hd, Hp, Ht. Qed.

Lemma handleDidAuth_nonce_error w v authorization domain parts e v' :
  ensureDomainAllowed v domain = None →
  parseAuthHeader authorization = inr parts →
  verifyTimestamp w v (Timestamp parts) = None →
  verifyNonce w v (DID parts) (Nonce parts) = (Some e, v') →
  handleDidAuth w v authorization domain = (inl e, v').
Proof. intros Hd Hp Ht Hn. unfold handleDidAuth. by rewrite Hd, Hp, Ht, Hn. Qed.

Lemma verifyNonce_rejected w v did nonce nv s :
  NonceValidator_ (config v) = Some nv →
  nv_Validate nv w did nonce (validator v) = ((false, None), s) →
  verifyNonce w v did nonce
  = (Some (ErrorWithStatus (ErrIs ErrNonceInvalid) 401), set_validator v s).
Proof. intros Hnv Hval. unfold verifyNonce. by rewrite Hnv, Hval. Qed.

Lemma verifyNonce_failed w v did nonce nv ok err s :
  NonceValidator_ (config v) = Some nv →
  nv_Validate nv w did nonce (validator v) = ((ok, Some err), s) →
  verifyNonce w v did nonce
  = (Some (ErrorWithStatus
             (wrappedAuthError ErrNonceValidatorFailure "validate nonce" err) 500),
     set_validator v s).
Proof. intros Hnv Hval. unfold verifyNonce. by rewrite Hnv, Hval. Qed.


(** C6. On the DID-WBA path, once the domain is allowed and the header
    parsed, each failure carries its status: a timestamp beyond the
    future tolerance yields [ErrTimestampFuture] with 400, an expired
    one [ErrTimestampExpired] with 401, a nonce the validator refuses
    with [(false, nil)] yields [ErrNonceInvalid] with 401, and an
    error of the validator yields [ErrNonceValidatorFailure] with 500;
    the middleware answers with that status. *)
Theorem did_path_failures_carry_status w v authorization domain parts :
  ensureDomainAllowed v domain = None →
  parseAuthHeader authorization = inr parts →
  (∀ t, time_Parse (Timestamp parts) = Some t →
        now v w + DefaultTimestampTolerance < t →
        ∃ e, handleDidAuth w v authorization domain = (inl e, v)
             ∧ e = ErrorWithStatus (ErrIs ErrTimestampFuture) 400
             ∧ (handleAuthError e).1 = 400)
  ∧ (∀ t, time_Parse (Timestamp parts) = Some t →
        t <= now v w + DefaultTimestampTolerance →
        TimestampExpiration (config v) < Sub (now v w) t →
        ∃ e, handleDidAuth w v authorization domain = (inl e, v)
             ∧ e = ErrorWithStatus (ErrIs ErrTimestampExpired) 401
             ∧ (handleAuthError e).1 = 401)
  ∧ (∀ nv s, verifyTimestamp w v (Timestamp parts) = None →
        NonceValidator_ (config v) = Some nv →
        nv_Validate nv w (DID parts) (Nonce parts) (validator v) = ((false, None), s) →
        ∃ e, handleDidAuth w v authorization domain = (inl e, set_validator v s)
             ∧ e = ErrorWithStatus (ErrIs ErrNonceInvalid) 401
             ∧ (handleAuthError e).1 = 401)
  ∧ (∀ nv ok err s, verifyTimestamp w v (Timestamp parts) = None →
        NonceValidator_ (config v) = Some nv →
        nv_Validate nv w (DID parts) (Nonce parts) (validator v) = ((ok, Some err), s) →
        ∃ e, handleDidAuth w v authorization domain = (inl e, set_validator v s)
             ∧ e = ErrorWithStatus
                     (wrappedAuthError ErrNonceValidatorFailure "validate nonce" err) 500
             ∧ (handleAuthError e).1 = 500).
Proof.
  intros Hd Hp. split; [| split; [| split]].
  - intros t Ht Hfut. eexists. split; [| split; [reflexivity | done]].
    eapply handleDidAuth_timestamp_error; [done.. |].
    by eapply verifyTimestamp_future.
  - intros t Ht Hnf Hexp. eexists. split; [| split; [reflexivity | done]].
    eapply handleDidAuth_timestamp_error; [done.. |].
    by eapply verifyTimestamp_expired.
  - intros nv s Hts Hnv Hval. eexists. split; [| split; [reflexivity | done]].
    eapply handleDidAuth_nonce_error; [done.. |].
    by eapply verifyNonce_rejected.
  - intros nv ok err s Hts Hnv Hval. eexists. split; [| split; [reflexivity | done]].
    eapply handleDidAuth_nonce_error; [done.. |].
    by eapply verifyNonce_failed.
Qed.

(** *** The Bearer path *)

(** C9. For an authorization that begins with the Bearer scheme the
    verifier's result (value, error and state) is the same whatever
    the domain argument; the allowed-domain list is not consulted: a
    token the JWT library accepts yields its DID also for a domain the
    list refuses. *)
Theorem bearer_path_ignores_domain w v authorization :
  GoStrings.HasPrefix authorization BearerScheme = true →
  (∀ d1 d2, VerifyAuthHeaderContext w v authorization d1
            = VerifyAuthHeaderContext w v authorization d2)
  ∧ (∀ key did domain,
       JWTPublicKey (config v) = Some key →
       jwt_verify w (GoStrings.TrimPrefix authorization BearerScheme) key
         (JWTAlgorithm (config v)) = inr did →
       VerifyAuthHeaderContext w v authorization domain = (inr (bearer_result did), v)).
Proof.
  intros Hb.
  assert (is_empty_string authorization = false) as Hne.
  { destruct authorization; [discriminate Hb | done]. }
  split.
  - intros d1 d2. unfold VerifyAuthHeaderContext. by rewrite Hne, Hb.
  - intros key did domain Hkey Hjwt. unfold VerifyAuthHeaderContext, handleBearerAuth.
    by rewrite Hne, Hb, Hkey, Hjwt.
Qed.

End Facts.

End VerifierFacts.

(** ** The verifier with the in-memory validator *)

Module ReplayFacts.
Import DidWba Verifier.

Section Facts.
Context `{Library}.
Abbreviation MemVerifier := (DidWbaVerifier (NV := Nonce.MemoryNonceValidator)).
Implicit Types (v : MemVerifier) (w : World).







End Facts.

End ReplayFacts.


(** ** Strings *)

Module StringFacts.

Lemma append_nil_l (s : string) : "" +:+ s = s.
Proof. reflexivity. Qed.

Lemma append_cons (c : ascii) (a b : string) : String c a +:+ b = String c (a +:+ b).
Proof. reflexivity. Qed.

Lemma append_nil_r (s : string) : s +:+ "" = s.
Proof. induction s as [|c s IH]; [done |]. by rewrite append_cons, IH. Qed.

Lemma append_assoc (a b c : string) : (a +:+ b) +:+ c = a +:+ (b +:+ c).
Proof. induction a as [|x a IH]; [done |]. by rewrite !append_cons, IH. Qed.

Lemma rev_app_spec (a b : string) : String.rev_app a b = String.rev a +:+ b.
Proof.
  unfold String.rev. revert b. induction a as [|x a IH]; intros b; simpl; [done |].
  rewrite (IH (String x b)), (IH (String x "")). by rewrite append_assoc.
Qed.

Lemma rev_cons (c : ascii) (s : string) : String.rev (String c s) = String.rev s +:+ String c "".
Proof. unfold String.rev at 1. simpl. apply rev_app_spec. Qed.

Lemma rev_append (a b : string) : String.rev (a +:+ b) = String.rev b +:+ String.rev a.
Proof.
  induction a as [|x a IH]; simpl.
  - by rewrite append_nil_l, append_nil_r.
  - by rewrite append_cons, !rev_cons, IH, append_assoc.
Qed.

Lemma rev_involutive (s : string) : String.rev (String.rev s) = s.
Proof.
  induction s as [|c s IH]; [done |].
  by rewrite rev_cons, rev_append, IH.
Qed.

Lemma length_append (a b : string) :
  String.length (a +:+ b) = (String.length a + String.length b)%nat.
Proof. induction a as [|x a IH]; [done |]. rewrite append_cons. simpl. by rewrite IH. Qed.

End StringFacts.

Create Rewrite HintDb str.
#[export] Hint Rewrite StringFacts.append_cons StringFacts.append_nil_l : str.

(** ** The header codec *)

Module CodecFacts.
Import DidWba StringFacts.

(** No byte of [s] is the double quote. *)
Fixpoint quote_free (s : string) : Prop :=
  match s with
  | EmptyString => True
  | String c s' => c ≠ dquote ∧ quote_free s'
  end.

Lemma quoted_value_append (v rest : string) :
  quote_free v → quoted_value (v +:+ String dquote rest) = Some v.
Proof.
  induction v as [|c v IH]; intros Hq.
  - rewrite append_nil_l. simpl. by destruct (decide (dquote = dquote)).
  - destruct Hq as [Hc Hv]. rewrite append_cons. simpl.
    destruct (decide (c = dquote)); [done |]. by rewrite IH.
Qed.
Lemma find_all_skip (a rest : string) :
  find_all (String.length a) (a +:+ rest) = find_all O rest.
Proof. induction a as [|c a IH]; [done |]. rewrite append_cons. simpl. exact IH. Qed.

Lemma find_all_value (v rest : string) :
  find_all (String.length v + 1) (v +:+ String dquote rest) = find_all O rest.
Proof.
  replace (v +:+ String dquote rest) with ((v +:+ dq) +:+ rest)
    by (by rewrite append_assoc).
  rewrite <- (find_all_skip (v +:+ dq) rest). by rewrite length_append.
Qed.

Lemma HasPrefix_append (p rest : string) : GoStrings.HasPrefix (p +:+ rest) p = true.
Proof.
  induction p as [|c p IH]; [done |]. rewrite append_cons. simpl.
  by destruct (decide (c = c)).
Qed.

Lemma drop_bytes_append (p rest : string) :
  GoStrings.drop_bytes (String.length p) (p +:+ rest) = rest.
Proof. induction p as [|c p IH]; [done |]. rewrite append_cons. simpl. exact IH. Qed.

Lemma match_key_hit (k v rest : string) :
  quote_free v →
  match_key (k +:+ "=" +:+ dq +:+ v +:+ dq +:+ rest) k
  = Some (v, (String.length (k +:+ "=" +:+ dq) + String.length v + 1)%nat).
Proof.
  intros Hv. unfold match_key.
  replace (k +:+ "=" +:+ dq +:+ v +:+ dq +:+ rest)
    with ((k +:+ "=" +:+ dq) +:+ v +:+ dq +:+ rest) by (by rewrite !append_assoc).
  rewrite HasPrefix_append, drop_bytes_append.
  change (v +:+ dq +:+ rest) with (v +:+ String dquote rest).
  by rewrite (quoted_value_append v rest Hv).
Qed.

Lemma match_key_miss (c c' : ascii) (k k' rest : string) :
  c ≠ c' → match_key (String c k +:+ rest) (String c' k') = None.
Proof.
  intros Hc. unfold match_key. rewrite !append_cons. simpl.
  by destruct (decide (c = c')).
Qed.

Lemma find_all_unfold (c : ascii) (s : string) :
  find_all O (String c s)
  = match match_at (String c s) with
    | Some (k, v, len) => (k, v) :: find_all (Nat.pred len) s
    | None => find_all O s
    end.
Proof. reflexivity. Qed.

Lemma match_at_unfold (s : string) :
  match_at s
  = match match_key s "did" with
    | Some (v, len) => Some ("did", v, len)
    | None =>
    match match_key s "nonce" with
    | Some (v, len) => Some ("nonce", v, len)
    | None =>
    match match_key s "timestamp" with
    | Some (v, len) => Some ("timestamp", v, len)
    | None =>
    match match_key s "verification_method" with
    | Some (v, len) => Some ("verification_method", v, len)
    | None =>
    match match_key s "signature" with
    | Some (v, len) => Some ("signature", v, len)
    | None => None
    end end end end end.
Proof. reflexivity. Qed.

Lemma match_at_key (k v rest : string) :
  k ∈ header_keys → quote_free v →
  match_at (k +:+ "=" +:+ dq +:+ v +:+ dq +:+ rest)
  = Some (k, v, (String.length (k +:+ "=" +:+ dq) + String.length v + 1)%nat).
Proof.
  intros Hk Hv. unfold header_keys in Hk. rewrite match_at_unfold.
  repeat (apply elem_of_cons in Hk as [-> | Hk]); [.. | by apply elem_of_nil in Hk];
    repeat (rewrite match_key_miss by discriminate);
    by rewrite (match_key_hit _ v rest Hv).
Qed.

(** A key, the opening, a value without quotes and the closing quote
    are one match, and the search goes on behind it. *)
Lemma find_all_pair (k v rest : string) :
  k ∈ header_keys → quote_free v →
  find_all O (k +:+ "=" +:+ dq +:+ v +:+ dq +:+ rest) = (k, v) :: find_all O rest.
Proof.
  intros Hk Hv. pose proof (match_at_key k v rest Hk Hv) as Hm.
  assert (∃ c k', k = String c k') as (c & k' & ->).
  { unfold header_keys in Hk.
    repeat (apply elem_of_cons in Hk as [-> | Hk]); [.. | by apply elem_of_nil in Hk];
      eauto. }
  assert (Nat.pred (String.length (String c k' +:+ "=" +:+ dq) + String.length v + 1)
          = String.length (k' +:+ "=" +:+ dq +:+ v +:+ dq)) as Hlen.
  { rewrite !length_append. simpl. lia. }
  rewrite append_cons in Hm |- *. rewrite find_all_unfold, Hm, Hlen. f_equal.
  replace (k' +:+ "=" +:+ dq +:+ v +:+ dq +:+ rest)
    with ((k' +:+ "=" +:+ dq +:+ v +:+ dq) +:+ rest) by (by rewrite !append_assoc).
  apply find_all_skip.
Qed.

Lemma find_all_separator (rest : string) : find_all O (", " +:+ rest) = find_all O rest.
Proof.
  rewrite append_cons, find_all_unfold, match_at_unfold, <- append_cons.
  repeat (rewrite match_key_miss by discriminate).
  rewrite append_cons, find_all_unfold, match_at_unfold, <- append_cons.
  repeat (rewrite match_key_miss by discriminate).
  by rewrite append_nil_l.
Qed.

Definition pair_text (k v : string) : string := k +:+ "=" +:+ dq +:+ v +:+ dq.

(** The header behind the scheme and the blank. *)
Definition body (h : AuthHeader) : string :=
  "did" +:+ "=" +:+ dq +:+ DID h +:+ dq +:+ ", "
  +:+ "nonce" +:+ "=" +:+ dq +:+ Nonce h +:+ dq +:+ ", "
  +:+ "timestamp" +:+ "=" +:+ dq +:+ Timestamp h +:+ dq +:+ ", "
  +:+ "verification_method" +:+ "=" +:+ dq +:+ VerificationMethod h +:+ dq +:+ ", "
  +:+ "signature" +:+ "=" +:+ dq +:+ Signature h +:+ dq +:+ "".

Lemma String_body h : String_ h = "DIDWba " +:+ body h.
Proof.
  unfold String_, body. rewrite append_nil_r. reflexivity.
Qed.

Lemma find_all_body h :
  quote_free (DID h) → quote_free (Nonce h) → quote_free (Timestamp h) →
  quote_free (VerificationMethod h) → quote_free (Signature h) →
  FindAllStringSubmatch (body h)
  = [("did", DID h); ("nonce", Nonce h); ("timestamp", Timestamp h);
     ("verification_method", VerificationMethod h); ("signature", Signature h)].
Proof.
  intros Hd Hn Ht Hv Hs. unfold FindAllStringSubmatch, body.
  rewrite find_all_pair, find_all_separator by (done || set_solver).
  rewrite find_all_pair, find_all_separator by (done || set_solver).
  rewrite find_all_pair, find_all_separator by (done || set_solver).
  rewrite find_all_pair, find_all_separator by (done || set_solver).
  rewrite find_all_pair by (done || set_solver).
  reflexivity.
Qed.

Lemma TrimLeftSpace_scheme (s : string) :
  GoStrings.TrimLeftSpace ("DIDWba " +:+ s) = "DIDWba " +:+ s.
Proof. reflexivity. Qed.

Lemma TrimLeftSpace_blank_body (h : AuthHeader) :
  GoStrings.TrimLeftSpace (" " +:+ body h) = body h.
Proof. reflexivity. Qed.

Lemma TrimPrefix_scheme (s : string) :
  GoStrings.TrimPrefix ("DIDWba " +:+ s) "DIDWba" = " " +:+ s.
Proof. reflexivity. Qed.

Lemma scheme_checks (s : string) :
  is_empty_string ("DIDWba " +:+ s) = false
  ∧ GoStrings.HasPrefix ("DIDWba " +:+ s) "DIDWba" = true.
Proof. split; reflexivity. Qed.

Lemma assign_all (d n t v g : string) :
  foldl assign empty_header
    [("did", d); ("nonce", n); ("timestamp", t); ("verification_method", v);
     ("signature", g)]
  = {| DID := d; Nonce := n; Timestamp := t; VerificationMethod := v; Signature := g |}.
Proof. reflexivity. Qed.

Lemma TrimRightSpace_quote (x : string) : GoStrings.TrimRightSpace (x +:+ dq) = x +:+ dq.
Proof.
  unfold GoStrings.TrimRightSpace. rewrite rev_append.
  change (String.rev dq) with dq. unfold dq at 1. rewrite append_cons, append_nil_l.
  change (GoStrings.trim_left_rev 0 (String dquote (String.rev x)))
    with (String dquote (String.rev x)).
  by rewrite rev_cons, rev_involutive.
Qed.

Lemma body_quote h : ∃ x, body h = x +:+ dq.
Proof.
  eexists. unfold body. rewrite append_nil_r. rewrite <- !append_assoc. reflexivity.
Qed.

Fixpoint all_bytes (p : ascii → bool) (s : string) : Prop :=
  match s with
  | EmptyString => True
  | String c s' => p c = true ∧ all_bytes p s'
  end.

Definition is_digit (c : ascii) : bool :=
  let b := GoStrings.byte_of c in ((48 <=? b) && (b <=? 57))%Z.
Definition is_alpha (c : ascii) : bool :=
  let b := GoStrings.byte_of c in
  (((65 <=? b) && (b <=? 90)) || ((97 <=? b) && (b <=? 122)))%Z.
Definition one_of (set : string) (c : ascii) : bool :=
  bool_decide (c ∈ String.list_ascii_of_string set).

(** The alphabets of the five values. *)
Definition uuid_byte (c : ascii) : bool := is_digit c || one_of "abcdefABCDEF-" c.
Definition rfc3339_byte (c : ascii) : bool := is_digit c || one_of "-:.+TZtz" c.
Definition fragment_byte (c : ascii) : bool :=
  is_digit c || is_alpha c || one_of "-._~!$&'()*+,;=:@/?%" c.
Definition did_byte (c : ascii) : bool := is_digit c || is_alpha c || one_of ".-_:%" c.
Definition base64url_byte (c : ascii) : bool := is_digit c || is_alpha c || one_of "-_" c.

Definition value_of (p : ascii → bool) (s : string) : Prop := s ≠ "" ∧ all_bytes p s.

Definition well_formed (h : AuthHeader) : Prop :=
  value_of did_byte (DID h) ∧ value_of uuid_byte (Nonce h)
  ∧ value_of rfc3339_byte (Timestamp h)
  ∧ value_of fragment_byte (VerificationMethod h)
  ∧ value_of base64url_byte (Signature h).

Lemma all_bytes_quote_free (p : ascii → bool) (s : string) :
  p dquote = false → all_bytes p s → quote_free s.
Proof.
  intros Hp. induction s as [|c s IH]; [done |]. intros [Hc Hs]. split; [| auto].
  intros ->. congruence.
Qed.

Lemma is_empty_string_false (s : string) : s ≠ "" → is_empty_string s = false.
Proof. intros Hs. unfold is_empty_string. by rewrite bool_decide_eq_false. Qed.

(** Parsing a formatted header gives the parts back when no value is
    empty or holds a double quote. *)
Lemma parse_format_quote_free (h : AuthHeader) :
  DID h ≠ "" → Nonce h ≠ "" → Timestamp h ≠ "" → VerificationMethod h ≠ "" →
  Signature h ≠ "" →
  quote_free (DID h) → quote_free (Nonce h) → quote_free (Timestamp h) →
  quote_free (VerificationMethod h) → quote_free (Signature h) →
  parseAuthHeader (String_ h) = inr h.
Proof.
  intros Hd Hn Ht Hv Hs Qd Qn Qt Qv Qs.
  destruct (body_quote h) as [x Hx].
  assert (GoStrings.TrimSpace (String_ h) = String_ h) as Htrim.
  { unfold GoStrings.TrimSpace. rewrite String_body, TrimLeftSpace_scheme.
    rewrite Hx, <- append_assoc. apply TrimRightSpace_quote. }
  assert (GoStrings.TrimSpace (GoStrings.TrimPrefix (String_ h) "DIDWba") = body h)
    as Hbody.
  { rewrite String_body, TrimPrefix_scheme. unfold GoStrings.TrimSpace.
    rewrite TrimLeftSpace_blank_body, Hx. apply TrimRightSpace_quote. }
  unfold parseAuthHeader. rewrite Htrim, Hbody, find_all_body by done.
  rewrite String_body.
  destruct (scheme_checks (body h)) as [-> ->].
  rewrite assign_all. cbn [negb DID Nonce Timestamp VerificationMethod Signature].
  rewrite !is_empty_string_false by done. by destruct h.
Qed.

(** C8. Parsing the formatted header is the identity on well-formed
    parts: when each of the five values is not empty and drawn from its
    alphabet (DID, UUID, RFC 3339 timestamp, fragment, base64url),
    [parseAuthHeader (String_ parts)] returns [parts]. *)
Theorem parse_format_roundtrip (parts : AuthHeader) :
  well_formed parts → parseAuthHeader (String_ parts) = inr parts.
Proof.
  intros ([Hd Qd] & [Hn Qn] & [Ht Qt] & [Hv Qv] & [Hs Qs]).
  apply parse_format_quote_free; try done;
    eapply all_bytes_quote_free; try eassumption; reflexivity.
Qed.

End CodecFacts.

(** ** Signing and verifying *)

Module SignatureFacts.
Import DidWba Verifier Examples.


(** [VerifySignature] hands [ecdsa.Verify] the SHA-256 digest of the
    content, hashed once. *)
Lemma VerifySignature_checks_first_digest v content signature sigBytes r s :
  Base64.DecodeString signature = Some sigBytes →
  unmarshalSignature sigBytes = inr (r, s) →
  VerifySignature v content signature
  = ECDSA.Verify (PublicKey v) (SHA256.Sum256 content) r s.
Proof. intros Hd Hu. unfold VerifySignature. by rewrite Hd, Hu. Qed.



End SignatureFacts.

(** ** The clients: [Transport.RoundTrip] and [httpClient.Fetch] *)

Module ClientFacts.
Import Examples Client.

Section Facts.
Context `{Library}.

Lemma updates_only_app xs ys :
  updates_only_on_2xx (xs ++ ys) = updates_only_on_2xx xs && updates_only_on_2xx ys.
Proof. apply forallb_app. Qed.

Lemma finish_events a target resp :
  (finish a target resp).2 = []
  ∨ (finish a target resp).2 = [Updated target (StatusCode resp)]
    ∧ 200 ≤ StatusCode resp < 300.
Proof.
  unfold finish.
  destruct ((200 <=? StatusCode resp) && (StatusCode resp <? 300)) eqn:E;
    destruct (resp_Body resp); simpl; auto; right; split; auto; lia.
Qed.

(** The end of [Fetch] sends nothing and updates on 2xx only. *)
Lemma finish_quiet a target resp :
  updates_only_on_2xx (finish a target resp).2 = true
  ∧ no_exchange (finish a target resp).2 = true.
Proof.
  destruct (finish_events a target resp) as [-> | [-> Hs]]; [done |].
  split; [| done]. simpl.
  destruct (Z.leb_spec 200 (StatusCode resp)), (Z.ltb_spec (StatusCode resp) 300);
    simpl; try done; lia.
Qed.

Ltac rule_at H401 :=
  unfold retries_once_on_401; simpl; rewrite ?H401;
  rewrite ?bool_decide_true by done; simpl.

(** [Fetch] follows the rule, whatever the server, the authenticator
    and the request are. *)
Theorem Fetch_follows_rule w a method target headers body :
  retries_once_on_401 target (Fetch w a method target headers body).2 = true
  ∧ updates_only_on_2xx (Fetch w a method target headers body).2 = true.
Proof.
  unfold Fetch. cbv zeta.
  generalize (if DidWba.is_empty_string method then "GET" else method); intros m.
  assert (∃ prepared : error + gmap string string, prepared =
    match body with
    | BodyNil | BodyReader => inr headers
    | BodyBytes => inr (default_content_type headers)
    | BodyValue (inl err) => inl (ErrWrap "marshal request body" err)
    | BodyValue (inr _) => inr (default_content_type headers)
    end) as [prepared Hp] by eauto.
  rewrite <- Hp. clear Hp. destruct prepared as [err | reqHeaders]; [done |].
  destruct (GenerateHeader w a target) as [[err | authHeader] a1];
    [split; reflexivity |].
  unfold performRequest.
  destruct (validMethod m) eqn:Hm; [| split; reflexivity].
  cbv zeta.
  destruct (http_do w 0 _) as [err | resp] eqn:Hdo; [split; reflexivity |].
  destruct (StatusCode resp =? 401) eqn:H401.
  - apply Z.eqb_eq in H401.
    unfold retry, performRequest. rewrite Hm.
    destruct (GenerateHeaderForce w _ target) as [[err | refreshed] a2].
    + rule_at H401. done.
    + cbv zeta. destruct (http_do w 1 _) as [err | resp1] eqn:Hdo1.
      * rule_at H401. done.
      * pose proof (finish_quiet a2 target resp1) as [Hu Hn].
        destruct (finish a2 target resp1) as [[r a5] updated]. simpl in Hu, Hn.
        rule_at H401. by rewrite Hn, Hu.
  - apply Z.eqb_neq in H401.
    pose proof (finish_quiet a1 target resp) as [Hu Hn].
    destruct (finish a1 target resp) as [[r a5] updated]. simpl in Hu, Hn.
    unfold retries_once_on_401. simpl.
    rewrite bool_decide_false by congruence. by rewrite Hn, Hu.
Qed.

(** [RoundTrip] sends at most one request, never clears a token, and
    hands every response it gets to [UpdateFromResponse]. *)
Theorem RoundTrip_sends_once w authenticator req :
  let '(r, a', events) := RoundTrip w authenticator req in
  (length (filter is_sent events) ≤ 1)%nat
  ∧ filter is_cleared events = []
  ∧ ∀ resp, r = inr resp → Updated (req_URL req) (StatusCode resp) ∈ events.
Proof.
  unfold RoundTrip. destruct authenticator as [a |].
  - destruct (GenerateHeader w a (req_URL req)) as [[err | headers] a1].
    + simpl. split; [lia |]. split; [done |]. intros resp [=].
    + cbv zeta. destruct (http_do w 0 _) as [err | resp].
      * simpl. split; [lia |]. split; [done |]. intros resp [=].
      * simpl. split; [lia |]. split; [done |]. intros ? [= <-]. set_solver.
  - simpl. split; [lia |]. split; [done |]. intros resp [=].
Qed.

End Facts.

(** C4, evaluated for [Transport.RoundTrip]: with a cached bearer
    token and a server that answers 401, the transport sends the
    request once with the cached token, returns the 401 response, and
    has called [UpdateFromResponse] on it, which stored the token that
    came with the 401. It neither cleared the token nor regenerated
    the header nor retried, so both parts of the rule fail. *)
Theorem transport_does_not_retry_on_401 :
  ∃ a resp a',
    authenticator0 = Some a
    ∧ tokens a !! "example.com" = Some "stale"
    ∧ RoundTrip world_401 (Some a) request0
      = (inr resp, Some a',
         [ Generated url0 false true;
           Sent {| req_Method := "GET"; req_URL := url0;
                   req_Header := {[ "Authorization" := "Bearer stale" ]} |} (Some 401);
           Updated url0 401 ])
    ∧ StatusCode resp = 401
    ∧ tokens a' !! "example.com" = Some "from-401"
    ∧ retries_once_on_401 url0 (RoundTrip world_401 (Some a) request0).2 = false
    ∧ updates_only_on_2xx (RoundTrip world_401 (Some a) request0).2 = false.
Proof.
  eexists _, _, _. split; [vm_compute; reflexivity |].
  split; [vm_compute; reflexivity |].
  split; [vm_compute; reflexivity |].
  split; [reflexivity |].
  split; [vm_compute; reflexivity |].
  split; vm_compute; reflexivity.
Qed.


End ClientFacts.

(** ** The properties at concrete inputs *)

Module Witnesses.
Import DidWba Verifier Examples.

Lemma verifier0_built allowed :
  NewDidWbaVerifier (config0 allowed) = inr (verifier0 allowed).
Proof. reflexivity. Qed.

Lemma new_verifier_requires_nonce_validator_witness :
  NewDidWbaVerifier config_without_validator = inl (ErrIs ErrNonceValidatorMissing).
Proof.
  apply VerifierFacts.new_verifier_requires_nonce_validator. reflexivity.
Defined.



Definition did0 : string := "did:wba:example.com".
Definition nonce0 : string := "3f2b8c1e-6d4a-4f0b-9e7a-1c2d3e4f5a6b".

Lemma header_at_parses ts :
  ts = "2025-10-30T22:00:00Z" ∨ ts = "2025-10-30T22:02:00Z" ∨ ts = "2025-10-30T21:00:00Z" →
  parseAuthHeader (header_at ts)
  = inr {| DID := did0; Nonce := nonce0; Timestamp := ts;
           VerificationMethod := "key-1"; Signature := "c2ln" |}.
Proof. intros [-> | [-> | ->]]; reflexivity. Qed.

Lemma did_path_failures_carry_status_witness :
  handleDidAuth world0 (verifier0 []) (header_at "2025-10-30T22:02:00Z") "example.com"
    = (inl (ErrorWithStatus (ErrIs ErrTimestampFuture) 400), verifier0 [])
  ∧ handleDidAuth world0 (verifier0 []) (header_at "2025-10-30T21:00:00Z") "example.com"
    = (inl (ErrorWithStatus (ErrIs ErrTimestampExpired) 401), verifier0 [])
  ∧ (handleDidAuth world0 verifier_seen (header_at "2025-10-30T22:00:00Z") "example.com").1
    = inl (ErrorWithStatus (ErrIs ErrNonceInvalid) 401)
  ∧ (handleDidAuth world0 verifier_failing (header_at "2025-10-30T22:00:00Z")
       "example.com").1
    = inl (ErrorWithStatus
             (wrappedAuthError ErrNonceValidatorFailure "validate nonce"
                (ErrNew "dial tcp: connection refused")) 500).
Proof.
  split; [| split; [| split]].
  - destruct (proj1 (VerifierFacts.did_path_failures_carry_status world0 (verifier0 [])
                       (header_at "2025-10-30T22:02:00Z") "example.com" _
                       eq_refl (header_at_parses _ (or_intror (or_introl eq_refl))))
                (t0 + 2 * Minute) eq_refl eq_refl) as (e & Hrun & -> & _).
    exact Hrun.
  - destruct (proj1 (proj2 (VerifierFacts.did_path_failures_carry_status world0
                              (verifier0 []) (header_at "2025-10-30T21:00:00Z")
                              "example.com" _ eq_refl
                              (header_at_parses _ (or_intror (or_intror eq_refl)))))
                (t0 - 60 * Minute) eq_refl ltac:(discriminate) eq_refl)
      as (e & Hrun & -> & _).
    exact Hrun.
  - destruct (proj1 (proj2 (proj2 (VerifierFacts.did_path_failures_carry_status world0
                              verifier_seen (header_at "2025-10-30T22:00:00Z")
                              "example.com" _ eq_refl
                              (header_at_parses _ (or_introl eq_refl)))))
                _ _ eq_refl eq_refl eq_refl) as (e & Hrun & -> & _).
    by rewrite Hrun.
  - destruct (proj2 (proj2 (proj2 (VerifierFacts.did_path_failures_carry_status world0
                              verifier_failing (header_at "2025-10-30T22:00:00Z")
                              "example.com" _ eq_refl
                              (header_at_parses _ (or_introl eq_refl)))))
                _ _ _ _ eq_refl eq_refl eq_refl) as (e & Hrun & -> & _).
    by rewrite Hrun.
Defined.

(** With the allow-list [example.com], the domain [intruder.com] is
    refused on the DID-WBA path and a Bearer token is still accepted. *)
Lemma bearer_path_ignores_domain_witness :
  ensureDomainAllowed (verifier0 ["example.com"]) "intruder.com"
    = Some (ErrorWithStatus (ErrWrapSentinel ErrDomainNotAllowed "intruder.com") 403)
  ∧ VerifyAuthHeaderContext world0 (verifier0 ["example.com"]) "Bearer good" "intruder.com"
    = (inr (bearer_result did0), verifier0 ["example.com"])
  ∧ VerifyAuthHeaderContext world0 (verifier0 ["example.com"]) "Bearer good" "intruder.com"
    = VerifyAuthHeaderContext world0 (verifier0 ["example.com"]) "Bearer good" "example.com".
Proof.
  split; [reflexivity | split].
  - apply (proj2 (VerifierFacts.bearer_path_ignores_domain world0
                    (verifier0 ["example.com"]) "Bearer good" eq_refl)
             "public-pem" did0 "intruder.com" eq_refl eq_refl).
  - apply (proj1 (VerifierFacts.bearer_path_ignores_domain world0
                    (verifier0 ["example.com"]) "Bearer good" eq_refl)).
Defined.


Lemma parse_format_roundtrip_witness :
  parseAuthHeader
    (String_ {| DID := did0; Nonce := nonce0; Timestamp := "2025-10-30T22:00:00Z";
                VerificationMethod := "key-1"; Signature := "c2ln" |})
  = inr {| DID := did0; Nonce := nonce0; Timestamp := "2025-10-30T22:00:00Z";
           VerificationMethod := "key-1"; Signature := "c2ln" |}.
Proof.
  apply CodecFacts.parse_format_roundtrip.
  unfold CodecFacts.well_formed, CodecFacts.value_of. simpl. repeat split; discriminate.
Defined.

End Witnesses.
